(** * Pomodoro clock: the timer state machine, its persistence and the
      history recorder, embedded from [src/timer.ts], [src/data.ts],
      [src/notification.ts] and [src/statusBar.ts].

    Conventions of the embedding.
    - JavaScript numbers that the program uses as counters, seconds and
      epoch milliseconds are integers of [Z]; [Math.floor (a / b)] is
      [a / b] of [Z] and [%] is [Z.rem].
    - The extension runs on one thread: every method is a transformer of
      one [World] (the timer object, the Memento behind [globalState], the
      status bar item and the messages shown in the window), written in a
      small reader/state monad so that the definitions read like the
      methods they embed.
    - What the host provides ([Date], [toLocaleString], the workspace
      configuration) is an interface: the class [Calendar] and the
      environment [Env]. *)

From Stdlib Require Import ZArith List String Ascii Bool Lia.
From Stdlib Require Import DecimalString.
Import ListNotations.
Open Scope Z_scope.

(** ** The host: dates *)

Module Host.

Definition msPerDay : Z := 24 * 60 * 60 * 1000.

Definition newline : ascii := ascii_of_nat 10.

(** The part of JavaScript's [Date] the program uses, on epoch
    milliseconds.
    - [addDays t d]: [date.setDate (date.getDate () + d)] on the date [t];
    - [startOfDay t]:
      [new Date (t.getFullYear (), t.getMonth (), t.getDate ()).getTime ()];
    - [toLocaleDateString], [toLocaleString]: the renderings for 'zh-CN'.
    The laws are those of a civil calendar: moving by zero days moves
    nothing, an earlier day starts earlier, and a rendered instant is one
    line of text. *)
Class Calendar : Type := {
  addDays : Z -> Z -> Z;
  startOfDay : Z -> Z;
  toLocaleDateString : Z -> string;
  toLocaleString : Z -> string;
  addDays_0 : forall t, addDays t 0 = t;
  startOfDay_earlier :
    forall t i j, 0 <= i < j ->
      startOfDay (addDays t (- j)) < startOfDay (addDays t (- i));
  toLocaleString_one_line :
    forall t, ~ In newline (list_ascii_of_string (toLocaleString t))
}.

End Host.

(** ** [src/data.ts] *)

Module Data.
Import Host.

Inductive TimerState : Type :=
| IDLE | WORKING | SHORT_BREAK | LONG_BREAK | PAUSED.

Definition TimerState_eqb (a b : TimerState) : bool :=
  match a, b with
  | IDLE, IDLE | WORKING, WORKING | SHORT_BREAK, SHORT_BREAK
  | LONG_BREAK, LONG_BREAK | PAUSED, PAUSED => true
  | _, _ => false
  end.

(** [startTime] is declared a number, but the timer passes
    [this.startTime!], which is [null] when the interval was not started
    in this process: the field is an option. *)
Record PomodoroRecord : Type := {
  startTime : option Z;
  endTime : Z;
  duration : Z;
  completed : bool
}.

Record TodayData : Type := {
  today_completedPomodoros : Z;
  today_totalWorkTime : Z
}.

Record TimerStateData : Type := {
  sd_state : TimerState;
  sd_remainingTime : Z;
  sd_totalDuration : Z;
  sd_completedPomodoros : Z;
  sd_consecutivePomodoros : Z;
  sd_timestamp : Z
}.

(** The Memento behind [globalState], at the two keys the program uses;
    [None] is a key that is absent ([undefined]). *)
Record Memento : Type := {
  pomodoroRecords : option (list PomodoroRecord);
  timerState : option TimerStateData
}.

Definition emptyMemento : Memento :=
  {| pomodoroRecords := None; timerState := None |}.

(** [globalState.get (POMODORO_RECORDS_KEY, [])] *)
Definition getPomodoroRecords (g : Memento) : list PomodoroRecord :=
  match pomodoroRecords g with
  | Some records => records
  | None => []
  end.

(** [records.push (record); globalState.update (KEY, records)] *)
Definition recordPomodoro (record : PomodoroRecord) (g : Memento) : Memento :=
  let records := getPomodoroRecords g in
  {| pomodoroRecords := Some (records ++ [record]);
     timerState := timerState g |}.

Definition saveTimerState (stateData : TimerStateData) (g : Memento) : Memento :=
  {| pomodoroRecords := pomodoroRecords g; timerState := Some stateData |}.

(** [globalState.get (TIMER_STATE_KEY) || null] *)
Definition getTimerState (g : Memento) : option TimerStateData :=
  timerState g.

Definition clearAllData (g : Memento) : Memento :=
  {| pomodoroRecords := None; timerState := None |}.

(** A [null] operand of [>=] and [<] is the number 0. *)
Definition toNumber (v : option Z) : Z :=
  match v with
  | Some n => n
  | None => 0
  end.

(** [new Date (null)] is the epoch. *)
Definition dateOf (v : option Z) : Z := toNumber v.

(** The predicate both aggregates filter with. *)
Definition inDay (dateStart dateEnd : Z) (record : PomodoroRecord) : bool :=
  (toNumber (startTime record) >=? dateStart)
  && (toNumber (startTime record) <? dateEnd)
  && completed record.

(** [dayRecords.reduce ((total, record) => total + record.duration, 0)] *)
Definition sumDuration (dayRecords : list PomodoroRecord) : Z :=
  fold_left (fun total record => total + duration record) dayRecords 0.

Section WithCalendar.
Context {cal : Calendar}.

Definition getTodayData (now : Z) (g : Memento) : TodayData :=
  let records := getPomodoroRecords g in
  let todayStart := startOfDay now in
  let todayEnd := todayStart + msPerDay in
  let todayRecords := filter (inDay todayStart todayEnd) records in
  {| today_completedPomodoros := Z.of_nat (List.length todayRecords);
     today_totalWorkTime := sumDuration todayRecords |}.

Record DayData : Type := {
  date : string;
  day_completed : Z;
  day_workTime : Z
}.

(** The body of the loop of [getLast7DaysData] at the index [i]. *)
Definition dayEntry (now : Z) (records : list PomodoroRecord) (i : Z) : DayData :=
  let date := addDays now (- i) in
  let dateStart := startOfDay date in
  let dateEnd := dateStart + msPerDay in
  let dayRecords := filter (inDay dateStart dateEnd) records in
  {| date := toLocaleDateString date;
     day_completed := Z.of_nat (List.length dayRecords);
     day_workTime := sumDuration dayRecords |}.

(** [for (let i = n - 1; i >= 0; i--) result.push (...)]: [n] is the
    number of iterations left, the index of the next one is [n - 1]. *)
Fixpoint last7Loop (now : Z) (records : list PomodoroRecord)
         (n : nat) (result : list DayData) : list DayData :=
  match n with
  | O => result
  | S i => last7Loop now records i (result ++ [dayEntry now records (Z.of_nat i)])
  end.

Definition getLast7DaysData (now : Z) (g : Memento) : list DayData :=
  let records := getPomodoroRecords g in
  last7Loop now records 7 [].

Definition csvHeader : string :=
  "开始时间,结束时间,时长(分钟),状态"%string.

Definition numberToString (n : Z) : string :=
  NilZero.string_of_int (Z.to_int n).

Definition csvRow (record : PomodoroRecord) : string :=
  let startTime := toLocaleString (dateOf (startTime record)) in
  let endTime := toLocaleString (endTime record) in
  let status := (if completed record then "完成" else "取消")%string in
  (startTime ++ "," ++ endTime ++ "," ++ numberToString (duration record)
     ++ "," ++ status ++ String newline "")%string.

(** [records.forEach (record => csv += row)] *)
Definition exportToCSV (g : Memento) : string :=
  let records := getPomodoroRecords g in
  fold_left (fun csv record => (csv ++ csvRow record)%string) records
            (csvHeader ++ String newline "")%string.

End WithCalendar.

(** [s.split ('\n')] on a string: the pieces between the separators, an
    empty piece after a final separator included. *)
Fixpoint splitOn (sep : ascii) (s : string) : list string :=
  match s with
  | EmptyString => [EmptyString]
  | String c rest =>
      if Ascii.eqb c sep then EmptyString :: splitOn sep rest
      else match splitOn sep rest with
           | piece :: pieces => String c piece :: pieces
           | [] => [String c EmptyString]
           end
  end.

End Data.

(** ** The messages of the window and the configuration *)

Module Notification.

(** The texts the program shows with [vscode.window.showInformationMessage],
    one constructor per text; a template's number is its argument. *)
Inductive Message : Type :=
| MsgAlreadyWorking              (* 番茄时钟已经在工作中 *)
| MsgStartWork (minutes : Z)     (* 开始工作番茄 (..分钟) *)
| MsgStartLongBreak (minutes : Z)  (* 开始长休息 (..分钟) *)
| MsgStartShortBreak (minutes : Z) (* 开始短休息 (..分钟) *)
| MsgCannotPause                 (* 当前状态无法暂停 *)
| MsgPaused                      (* 番茄时钟已暂停 *)
| MsgCannotResume                (* 当前状态无法继续 *)
| MsgPauseTimeLost               (* 无法继续，暂停时间信息丢失 *)
| MsgResumed                     (* 番茄时钟已继续 *)
| MsgIsIdle                      (* 番茄时钟当前为空闲状态 *)
| MsgCancelled                   (* 番茄时钟已取消 *)
| MsgBreakOver                   (* 休息结束，准备开始下一个番茄吧！ *)
| MsgWorkEnd                     (* 工作时间结束，开始休息吧～ *)
| MsgBreakEnd                    (* 休息时间结束，准备开始工作吧！ *)
| MsgBell.                       (* 🔔 时间到！ *)

Record TimerConfig : Type := {
  workDuration : Z;
  shortBreakDuration : Z;
  longBreakDuration : Z;
  longBreakInterval : Z;
  enableSound : bool;
  enableNotification : bool
}.

End Notification.

(** ** [src/timer.ts] *)

Module Timer.
Import Host Notification.
Export Data(TimerState(..), TimerState_eqb).

(** The fields of the [PomodoroTimer] object; [intervalId] is whether an
    interval is registered. *)
Record PomodoroTimer : Type := {
  state : TimerState;
  remainingTime : Z;
  totalDuration : Z;
  intervalId : bool;
  completedPomodoros : Z;
  consecutivePomodoros : Z;
  startTime : option Z;
  pauseTime : option Z;
  previousState : TimerState
}.

(** The object [new PomodoroTimer (...)] builds. *)
Definition newTimer : PomodoroTimer :=
  {| state := IDLE; remainingTime := 0; totalDuration := 0;
     intervalId := false; completedPomodoros := 0;
     consecutivePomodoros := 0; startTime := None; pauseTime := None;
     previousState := IDLE |}.

(** What [getStatusText] renders: the glyph of the state and the digits
    of MM:SS, or the idle text. *)
Inductive StatusText : Type :=
| Countdown (glyph : TimerState) (minutes seconds : Z)
| IdleText.

(** What [getTooltipText] renders. *)
Record Tooltip : Type := {
  tt_todayCompleted : Z;
  tt_consecutive : Z;
  tt_current : option (TimerState * Z * Z)
}.

Record StatusBarItem : Type := {
  text : option StatusText;
  tooltip : option Tooltip
}.

Record World : Type := {
  timer : PomodoroTimer;
  globalState : Data.Memento;
  statusBarItem : StatusBarItem;
  window : list Message
}.

(** The values [config.get] returns for the options of 'pomodoroClock';
    [None] is [undefined]. *)
Record Settings : Type := {
  cfg_workDuration : option Z;
  cfg_shortBreakDuration : option Z;
  cfg_longBreakDuration : option Z;
  cfg_longBreakInterval : option Z;
  cfg_enableSound : option bool;
  cfg_enableNotification : option bool
}.

(** What a callback reads from outside: the clock and the configuration.
    One callback reads one instant. *)
Record Env : Type := {
  clock : Z;
  configuration : Settings
}.

(** *** The monad of the methods *)

Definition M (A : Type) : Type := Env -> World -> A * World.

Definition ret {A} (a : A) : M A := fun _ w => (a, w).

Definition bind {A B} (m : M A) (k : A -> M B) : M B :=
  fun e w => let (a, w') := m e w in k a e w'.

Notation "x <- m ;; k" := (bind m (fun x => k))
  (at level 61, m at next level, right associativity).
Notation "m ;; k" := (bind m (fun _ => k))
  (at level 61, right associativity).

Definition exec {A} (m : M A) (e : Env) (w : World) : World := snd (m e w).

Definition this {A} (field : PomodoroTimer -> A) : M A :=
  fun _ w => (field (timer w), w).

Definition modifyTimer (f : PomodoroTimer -> PomodoroTimer) : M unit :=
  fun _ w => (tt, {| timer := f (timer w); globalState := globalState w;
                     statusBarItem := statusBarItem w; window := window w |}).

Definition modifyStore (f : Data.Memento -> Data.Memento) : M unit :=
  fun _ w => (tt, {| timer := timer w; globalState := f (globalState w);
                     statusBarItem := statusBarItem w; window := window w |}).

Definition store {A} (f : Data.Memento -> A) : M A :=
  fun _ w => (f (globalState w), w).

Definition Date_now : M Z := fun e w => (clock e, w).

(** [vscode.window.showInformationMessage (m)] *)
Definition showInformationMessage (m : Message) : M unit :=
  fun _ w => (tt, {| timer := timer w; globalState := globalState w;
                     statusBarItem := statusBarItem w;
                     window := window w ++ [m] |}).

(** [statusBarManager.update (text, tooltip)]; the tooltip is never the
    empty string. *)
Definition statusBar_update (t : StatusText) (tip : Tooltip) : M unit :=
  fun _ w => (tt, {| timer := timer w; globalState := globalState w;
                     statusBarItem := {| text := Some t; tooltip := Some tip |};
                     window := window w |}).

(** *** [src/notification.ts]: the methods of [NotificationManager] *)

Definition playSound : M unit :=
  showInformationMessage MsgBell.

Definition showNotification (message : Message) (config : TimerConfig) : M unit :=
  (if enableNotification config
   then showInformationMessage message
   else ret tt) ;;
  (if enableSound config then playSound else ret tt).

Definition notifyWorkEnd (config : TimerConfig) : M unit :=
  showNotification MsgWorkEnd config.

Definition notifyBreakEnd (config : TimerConfig) : M unit :=
  showNotification MsgBreakEnd config.

(** *** Assignments to the fields *)

Definition set_state (v : TimerState) : M unit :=
  modifyTimer (fun t =>
    {| state := v; remainingTime := remainingTime t;
       totalDuration := totalDuration t; intervalId := intervalId t;
       completedPomodoros := completedPomodoros t;
       consecutivePomodoros := consecutivePomodoros t;
       startTime := startTime t; pauseTime := pauseTime t;
       previousState := previousState t |}).

Definition withRemainingTime (v : Z) (t : PomodoroTimer) : PomodoroTimer :=
  {| state := state t; remainingTime := v;
     totalDuration := totalDuration t; intervalId := intervalId t;
     completedPomodoros := completedPomodoros t;
     consecutivePomodoros := consecutivePomodoros t;
     startTime := startTime t; pauseTime := pauseTime t;
     previousState := previousState t |}.

Definition set_remainingTime (v : Z) : M unit :=
  modifyTimer (withRemainingTime v).

Definition set_totalDuration (v : Z) : M unit :=
  modifyTimer (fun t =>
    {| state := state t; remainingTime := remainingTime t;
       totalDuration := v; intervalId := intervalId t;
       completedPomodoros := completedPomodoros t;
       consecutivePomodoros := consecutivePomodoros t;
       startTime := startTime t; pauseTime := pauseTime t;
       previousState := previousState t |}).

Definition set_intervalId (v : bool) : M unit :=
  modifyTimer (fun t =>
    {| state := state t; remainingTime := remainingTime t;
       totalDuration := totalDuration t; intervalId := v;
       completedPomodoros := completedPomodoros t;
       consecutivePomodoros := consecutivePomodoros t;
       startTime := startTime t; pauseTime := pauseTime t;
       previousState := previousState t |}).

Definition set_completedPomodoros (v : Z) : M unit :=
  modifyTimer (fun t =>
    {| state := state t; remainingTime := remainingTime t;
       totalDuration := totalDuration t; intervalId := intervalId t;
       completedPomodoros := v;
       consecutivePomodoros := consecutivePomodoros t;
       startTime := startTime t; pauseTime := pauseTime t;
       previousState := previousState t |}).

Definition set_consecutivePomodoros (v : Z) : M unit :=
  modifyTimer (fun t =>
    {| state := state t; remainingTime := remainingTime t;
       totalDuration := totalDuration t; intervalId := intervalId t;
       completedPomodoros := completedPomodoros t;
       consecutivePomodoros := v;
       startTime := startTime t; pauseTime := pauseTime t;
       previousState := previousState t |}).

Definition set_startTime (v : option Z) : M unit :=
  modifyTimer (fun t =>
    {| state := state t; remainingTime := remainingTime t;
       totalDuration := totalDuration t; intervalId := intervalId t;
       completedPomodoros := completedPomodoros t;
       consecutivePomodoros := consecutivePomodoros t;
       startTime := v; pauseTime := pauseTime t;
       previousState := previousState t |}).

Definition set_pauseTime (v : option Z) : M unit :=
  modifyTimer (fun t =>
    {| state := state t; remainingTime := remainingTime t;
       totalDuration := totalDuration t; intervalId := intervalId t;
       completedPomodoros := completedPomodoros t;
       consecutivePomodoros := consecutivePomodoros t;
       startTime := startTime t; pauseTime := v;
       previousState := previousState t |}).

Definition set_previousState (v : TimerState) : M unit :=
  modifyTimer (fun t =>
    {| state := state t; remainingTime := remainingTime t;
       totalDuration := totalDuration t; intervalId := intervalId t;
       completedPomodoros := completedPomodoros t;
       consecutivePomodoros := consecutivePomodoros t;
       startTime := startTime t; pauseTime := pauseTime t;
       previousState := v |}).

(** *** The methods *)

(** [config.get (key) || d]: [undefined] and 0 give the default. *)
Definition orDefault (v : option Z) (d : Z) : Z :=
  match v with
  | None | Some 0 => d
  | Some n => n
  end.

(** [config.get (key) !== false] *)
Definition notFalse (v : option bool) : bool :=
  match v with
  | Some false => false
  | _ => true
  end.

(** The object [getConfig] builds from the workspace configuration. *)
Definition configOf (config : Settings) : TimerConfig :=
  {| workDuration := orDefault (cfg_workDuration config) 25;
     shortBreakDuration := orDefault (cfg_shortBreakDuration config) 5;
     longBreakDuration := orDefault (cfg_longBreakDuration config) 15;
     longBreakInterval := orDefault (cfg_longBreakInterval config) 4;
     enableSound := notFalse (cfg_enableSound config);
     enableNotification := notFalse (cfg_enableNotification config) |}.

Definition getConfig : M TimerConfig :=
  fun e w => (configOf (configuration e), w).

Definition stopTimer : M unit :=
  id <- this intervalId ;;
  if id then set_intervalId false else ret tt.

(** [setInterval] registers the callback [tick] below. *)
Definition startTimer : M unit :=
  stopTimer ;;
  set_intervalId true.

Definition saveState : M unit :=
  s <- this state ;;
  if negb (TimerState_eqb s IDLE) then
    remaining <- this remainingTime ;;
    total <- this totalDuration ;;
    completed <- this completedPomodoros ;;
    consecutive <- this consecutivePomodoros ;;
    now <- Date_now ;;
    modifyStore (Data.saveTimerState
      {| Data.sd_state := s;
         Data.sd_remainingTime := remaining;
         Data.sd_totalDuration := total;
         Data.sd_completedPomodoros := completed;
         Data.sd_consecutivePomodoros := consecutive;
         Data.sd_timestamp := now |})
  else ret tt.

Definition getStatusText : M StatusText :=
  remaining <- this remainingTime ;;
  let minutes := remaining / 60 in
  let seconds := Z.rem remaining 60 in
  let timeText := if remaining >? 0 then (minutes, seconds) else (0, 0) in
  s <- this state ;;
  ret (match s with
       | WORKING | SHORT_BREAK | LONG_BREAK | PAUSED =>
           Countdown s (fst timeText) (snd timeText)
       | IDLE => IdleText
       end).

Section WithCalendar.
Context {cal : Calendar}.

Definition getTooltipText : M Tooltip :=
  now <- Date_now ;;
  todayData <- store (Data.getTodayData now) ;;
  consecutive <- this consecutivePomodoros ;;
  s <- this state ;;
  remaining <- this remainingTime ;;
  ret {| tt_todayCompleted := Data.today_completedPomodoros todayData;
         tt_consecutive := consecutive;
         tt_current :=
           if negb (TimerState_eqb s IDLE)
           then Some (s, remaining / 60, Z.rem remaining 60)
           else None |}.

Definition updateStatusBar : M unit :=
  statusText <- getStatusText ;;
  tooltip <- getTooltipText ;;
  statusBar_update statusText tooltip ;;
  saveState.

Definition resetTimer : M unit :=
  set_state IDLE ;;
  set_remainingTime 0 ;;
  set_totalDuration 0 ;;
  set_startTime None ;;
  set_pauseTime None ;;
  set_previousState IDLE ;;
  saveState.

Definition startBreak : M unit :=
  stopTimer ;;
  config <- getConfig ;;
  consecutive <- this consecutivePomodoros ;;
  let isLongBreak := consecutive >=? longBreakInterval config in
  (if isLongBreak then
     set_totalDuration (longBreakDuration config * 60) ;;
     set_state LONG_BREAK ;;
     showInformationMessage (MsgStartLongBreak (longBreakDuration config))
   else
     set_totalDuration (shortBreakDuration config * 60) ;;
     set_state SHORT_BREAK ;;
     showInformationMessage (MsgStartShortBreak (shortBreakDuration config))) ;;
  total <- this totalDuration ;;
  set_remainingTime total ;;
  now <- Date_now ;;
  set_startTime (Some now) ;;
  startTimer ;;
  updateStatusBar.

Definition handleTimerEnd : M unit :=
  stopTimer ;;
  config <- getConfig ;;
  s <- this state ;;
  (match s with
   | WORKING =>
       completed <- this completedPomodoros ;;
       set_completedPomodoros (completed + 1) ;;
       consecutive <- this consecutivePomodoros ;;
       set_consecutivePomodoros (consecutive + 1) ;;
       started <- this startTime ;;
       now <- Date_now ;;
       modifyStore (Data.recordPomodoro
         {| Data.startTime := started;
            Data.endTime := now;
            Data.duration := workDuration config;
            Data.completed := true |}) ;;
       notifyWorkEnd config ;;
       startBreak
   | SHORT_BREAK | LONG_BREAK =>
       notifyBreakEnd config ;;
       (if TimerState_eqb s LONG_BREAK
        then set_consecutivePomodoros 0
        else ret tt) ;;
       resetTimer ;;
       showInformationMessage MsgBreakOver
   | IDLE | PAUSED => ret tt
   end) ;;
  updateStatusBar.

(** The callback of [setInterval]: it runs once a second while the
    interval is registered. *)
Definition tick : M unit :=
  id <- this intervalId ;;
  if id then
    remaining <- this remainingTime ;;
    set_remainingTime (remaining - 1) ;;
    remaining <- this remainingTime ;;
    if remaining <=? 0 then handleTimerEnd else updateStatusBar
  else ret tt.

Definition startWork : M unit :=
  s <- this state ;;
  if TimerState_eqb s WORKING then
    showInformationMessage MsgAlreadyWorking
  else
    stopTimer ;;
    config <- getConfig ;;
    set_totalDuration (workDuration config * 60) ;;
    total <- this totalDuration ;;
    set_remainingTime total ;;
    set_state WORKING ;;
    now <- Date_now ;;
    set_startTime (Some now) ;;
    startTimer ;;
    updateStatusBar ;;
    showInformationMessage (MsgStartWork (workDuration config)).

Definition pause : M unit :=
  s <- this state ;;
  if negb (TimerState_eqb s WORKING) && negb (TimerState_eqb s SHORT_BREAK)
     && negb (TimerState_eqb s LONG_BREAK) then
    showInformationMessage MsgCannotPause
  else
    stopTimer ;;
    set_previousState s ;;
    now <- Date_now ;;
    set_pauseTime (Some now) ;;
    set_state PAUSED ;;
    updateStatusBar ;;
    showInformationMessage MsgPaused.

(** [!this.pauseTime]: [null] and 0 are false. *)
Definition falsy (v : option Z) : bool :=
  match v with
  | None | Some 0 => true
  | Some _ => false
  end.

Definition resume : M unit :=
  s <- this state ;;
  if negb (TimerState_eqb s PAUSED) then
    showInformationMessage MsgCannotResume
  else
    paused <- this pauseTime ;;
    if falsy paused then
      showInformationMessage MsgPauseTimeLost
    else
      previous <- this previousState ;;
      set_state previous ;;
      set_pauseTime None ;;
      startTimer ;;
      updateStatusBar ;;
      showInformationMessage MsgResumed.

Definition cancel : M unit :=
  s <- this state ;;
  if TimerState_eqb s IDLE then
    showInformationMessage MsgIsIdle
  else
    stopTimer ;;
    (if TimerState_eqb s WORKING
     then set_consecutivePomodoros 0
     else ret tt) ;;
    resetTimer ;;
    updateStatusBar ;;
    showInformationMessage MsgCancelled.

Definition restoreState : M unit :=
  savedState <- store Data.getTimerState ;;
  match savedState with
  | Some saved =>
      set_state (Data.sd_state saved) ;;
      set_remainingTime (Data.sd_remainingTime saved) ;;
      set_totalDuration (Data.sd_totalDuration saved) ;;
      set_completedPomodoros (Data.sd_completedPomodoros saved) ;;
      set_consecutivePomodoros (Data.sd_consecutivePomodoros saved) ;;
      s <- this state ;;
      (match s with
       | WORKING | SHORT_BREAK | LONG_BREAK =>
           now <- Date_now ;;
           let elapsed := (now - Data.sd_timestamp saved) / 1000 in
           remaining <- this remainingTime ;;
           set_remainingTime (Z.max 0 (remaining - elapsed)) ;;
           remaining <- this remainingTime ;;
           if remaining >? 0 then startTimer else handleTimerEnd
       | IDLE | PAUSED => ret tt
       end) ;;
      updateStatusBar
  | None => ret tt
  end.

Definition dispose : M unit :=
  stopTimer ;;
  saveState.

(** [activate] in [src/extension.ts], on the timer: a new process
    builds a new timer over the Memento that survived, shows the
    status bar and restores. *)
Definition newWorld (persisted : Data.Memento) : World :=
  {| timer := newTimer; globalState := persisted;
     statusBarItem := {| text := None; tooltip := None |};
     window := [] |}.

Definition activate : M unit :=
  updateStatusBar ;;
  restoreState.

(** The callbacks of an interval: one [tick] per element of [clocks],
    each at its instant, under one configuration. *)
Fixpoint ticks (config : Settings) (clocks : list Z) (w : World) : World :=
  match clocks with
  | [] => w
  | now :: rest =>
      ticks config rest
            (exec tick {| clock := now; configuration := config |} w)
  end.

End WithCalendar.

End Timer.

(** ** A host to run the model on: a zone at a fixed offset from UTC

    (China Standard Time is one.) Days are 24 hours long, [setDate] moves
    by whole days, and instants render as 'zh-CN' renders them:
    [2024/1/5 08:03:09]. *)

Module FixedZone.
Import Host.

(** The civil date of a day number (days since 1970-01-01), by the
    era/day-of-era computation of the proleptic Gregorian calendar. *)
Definition civilFromDays (days : Z) : Z * Z * Z :=
  let z := days + 719468 in
  let era := z / 146097 in
  let doe := z - era * 146097 in
  let yoe := (doe - doe / 1460 + doe / 36524 - doe / 146096) / 365 in
  let doy := doe - (365 * yoe + yoe / 4 - yoe / 100) in
  let mp := (5 * doy + 2) / 153 in
  let d := doy - (153 * mp + 2) / 5 + 1 in
  let m := if mp <? 10 then mp + 3 else mp - 9 in
  let y := yoe + era * 400 + (if m <=? 2 then 1 else 0) in
  (y, m, d).

Definition pad2 (n : Z) : string :=
  if n <? 10 then ("0" ++ Data.numberToString n)%string
  else Data.numberToString n.

Section Zone.
Variable offset : Z.

Definition addDays (t d : Z) : Z := t + d * msPerDay.

Definition startOfDay (t : Z) : Z :=
  (t + offset) / msPerDay * msPerDay - offset.

Definition toLocaleDateString (t : Z) : string :=
  let '(y, m, d) := civilFromDays ((t + offset) / msPerDay) in
  (Data.numberToString y ++ "/" ++ Data.numberToString m ++ "/"
     ++ Data.numberToString d)%string.

Definition toLocaleString (t : Z) : string :=
  let ms := (t + offset) mod msPerDay in
  let h := ms / 3600000 in
  let mi := ms / 60000 mod 60 in
  let s := ms / 1000 mod 60 in
  (toLocaleDateString t ++ " " ++ pad2 h ++ ":" ++ pad2 mi ++ ":"
     ++ pad2 s)%string.
End Zone.

End FixedZone.

(** * Properties *)

(** ** Texts *)

Section Texts.
Import Host.

Lemma list_ascii_of_string_app (a b : string) :
  list_ascii_of_string (a ++ b) =
  (list_ascii_of_string a ++ list_ascii_of_string b)%list.
Proof.
  induction a as [|c a IH]; simpl; [reflexivity | now rewrite IH].
Qed.

(** A string is one line when it holds no line feed. *)
Definition oneLine (s : string) : Prop :=
  ~ In newline (list_ascii_of_string s).

Lemma oneLine_app (a b : string) :
  oneLine a -> oneLine b -> oneLine (a ++ b).
Proof.
  unfold oneLine. rewrite list_ascii_of_string_app, in_app_iff. tauto.
Qed.

Lemma oneLine_uint (d : Decimal.uint) : oneLine (NilEmpty.string_of_uint d).
Proof.
  unfold oneLine.
  induction d; simpl; try tauto.
  all: intro H; destruct H as [E | H]; [discriminate E | exact (IHd H)].
Qed.

Lemma oneLine_numberToString (n : Z) : oneLine (Data.numberToString n).
Proof.
  unfold Data.numberToString, NilZero.string_of_int.
  destruct (Z.to_int n) as [d | d].
  - unfold NilZero.string_of_uint. destruct d; try apply oneLine_uint.
    unfold oneLine. simpl. intros [E | []]. discriminate E.
  - apply (oneLine_app "-").
    + unfold oneLine. simpl. intros [E | []]. discriminate E.
    + unfold NilZero.string_of_uint. destruct d; try apply oneLine_uint.
      unfold oneLine. simpl. intros [E | []]. discriminate E.
Qed.

Lemma oneLine_pad2 (n : Z) : oneLine (FixedZone.pad2 n).
Proof.
  unfold FixedZone.pad2. destruct (n <? 10).
  - apply (oneLine_app "0"); [| apply oneLine_numberToString].
    unfold oneLine. simpl. intros [E | []]. discriminate E.
  - apply oneLine_numberToString.
Qed.

Ltac one_line_char :=
  unfold oneLine; simpl; intros [E | []]; discriminate E.

Lemma oneLine_toLocaleDateString (offset t : Z) :
  oneLine (FixedZone.toLocaleDateString offset t).
Proof.
  unfold FixedZone.toLocaleDateString.
  destruct (FixedZone.civilFromDays _) as [[y m] d].
  repeat first
    [ apply oneLine_numberToString
    | match goal with |- oneLine (_ ++ _) => apply oneLine_app end
    | one_line_char ].
Qed.

Lemma oneLine_toLocaleString (offset t : Z) :
  oneLine (FixedZone.toLocaleString offset t).
Proof.
  unfold FixedZone.toLocaleString.
  repeat first
    [ apply oneLine_toLocaleDateString
    | apply oneLine_pad2
    | match goal with |- oneLine (_ ++ _) => apply oneLine_app end
    | one_line_char ].
Qed.

Lemma fixedZone_addDays_0 (t : Z) : FixedZone.addDays t 0 = t.
Proof. unfold FixedZone.addDays. lia. Qed.

Lemma fixedZone_startOfDay_earlier (offset t i j : Z) :
  0 <= i < j ->
  FixedZone.startOfDay offset (FixedZone.addDays t (- j))
  < FixedZone.startOfDay offset (FixedZone.addDays t (- i)).
Proof.
  intros Hij. unfold FixedZone.startOfDay, FixedZone.addDays.
  replace (t + - j * msPerDay + offset) with (t + offset + (- j) * msPerDay) by lia.
  replace (t + - i * msPerDay + offset) with (t + offset + (- i) * msPerDay) by lia.
  rewrite !Z.div_add by (unfold msPerDay; lia).
  unfold msPerDay. lia.
Qed.

End Texts.

(** The calendar of the zone [offset] milliseconds east of UTC. *)
Definition fixedZone (offset : Z) : Host.Calendar :=
  {| Host.addDays := FixedZone.addDays;
     Host.startOfDay := FixedZone.startOfDay offset;
     Host.toLocaleDateString := FixedZone.toLocaleDateString offset;
     Host.toLocaleString := FixedZone.toLocaleString offset;
     Host.addDays_0 := fixedZone_addDays_0;
     Host.startOfDay_earlier := fixedZone_startOfDay_earlier offset;
     Host.toLocaleString_one_line := oneLine_toLocaleString offset |}.

(** China Standard Time. *)
Definition cst : Host.Calendar := fixedZone (8 * 3600000).

Example cst_renders :
  @Host.toLocaleString cst 1704441789000 = "2024/1/5 16:03:09"%string
  /\ @Host.startOfDay cst 1704441789000 = 1704384000000.
Proof. split; vm_compute; reflexivity. Qed.

(** ** The history recorder *)

Section History.
Import Host Data.
Context {cal : Calendar}.

(** The daily aggregate in the words of the specification: the completed
    records whose start falls in [[dayStart, dayStart + 24h)], counted,
    and their minutes, added. *)
Definition startsInDay (dayStart : Z) (record : PomodoroRecord) : bool :=
  (dayStart <=? toNumber (startTime record))
  && (toNumber (startTime record) <? dayStart + 24 * 60 * 60 * 1000).

Fixpoint completedCount (dayStart : Z) (records : list PomodoroRecord) : Z :=
  match records with
  | [] => 0
  | record :: rest =>
      (if completed record && startsInDay dayStart record then 1 else 0)
      + completedCount dayStart rest
  end.

Fixpoint completedMinutes (dayStart : Z) (records : list PomodoroRecord) : Z :=
  match records with
  | [] => 0
  | record :: rest =>
      (if completed record && startsInDay dayStart record
       then duration record else 0)
      + completedMinutes dayStart rest
  end.

Lemma inDay_startsInDay (dayStart : Z) (record : PomodoroRecord) :
  inDay dayStart (dayStart + msPerDay) record
  = completed record && startsInDay dayStart record.
Proof.
  unfold inDay, startsInDay, msPerDay.
  rewrite Z.geb_leb. destruct (completed record); 
    [rewrite andb_true_r; reflexivity | rewrite andb_false_r; reflexivity].
Qed.

Lemma fold_left_duration (records : list PomodoroRecord) (acc : Z) :
  fold_left (fun total record => total + duration record) records acc
  = acc + sumDuration records.
Proof.
  unfold sumDuration. revert acc.
  induction records as [|r rest IH]; intros acc; simpl; [lia |].
  rewrite IH, (IH (duration r)). lia.
Qed.

Lemma filter_count (dayStart : Z) (records : list PomodoroRecord) :
  Z.of_nat (List.length (filter (inDay dayStart (dayStart + msPerDay)) records))
  = completedCount dayStart records.
Proof.
  induction records as [|r rest IH]; [reflexivity |].
  simpl filter. simpl completedCount. rewrite inDay_startsInDay.
  destruct (completed r && startsInDay dayStart r); simpl List.length; lia.
Qed.

Lemma filter_minutes (dayStart : Z) (records : list PomodoroRecord) :
  sumDuration (filter (inDay dayStart (dayStart + msPerDay)) records)
  = completedMinutes dayStart records.
Proof.
  induction records as [|r rest IH]; [reflexivity |].
  simpl filter. simpl completedMinutes. rewrite inDay_startsInDay.
  destruct (completed r && startsInDay dayStart r); [| lia].
  unfold sumDuration in *. simpl fold_left.
  rewrite fold_left_duration. unfold sumDuration. lia.
Qed.

Lemma dayEntry_aggregate (now : Z) (records : list PomodoroRecord) (i : Z) :
  dayEntry now records i
  = {| date := toLocaleDateString (addDays now (- i));
       day_completed := completedCount (startOfDay (addDays now (- i))) records;
       day_workTime := completedMinutes (startOfDay (addDays now (- i))) records |}.
Proof.
  unfold dayEntry. now rewrite filter_count, filter_minutes.
Qed.

Lemma no_completed_zero (dayStart : Z) (records : list PomodoroRecord) :
  (forall record, In record records ->
     completed record && startsInDay dayStart record = false) ->
  completedCount dayStart records = 0
  /\ completedMinutes dayStart records = 0.
Proof.
  induction records as [|r rest IH]; intros Hnone; [split; reflexivity |].
  simpl. rewrite (Hnone r (or_introl eq_refl)).
  destruct IH as [IHc IHm]; [intros r' Hin; apply Hnone; now right |].
  lia.
Qed.

(** The loop pushes the entries of the indexes [n - 1] down to 0. *)
Lemma last7Loop_unfold (now : Z) (records : list PomodoroRecord) (n : nat) :
  forall result,
    last7Loop now records n result
    = (result ++ map (fun i => dayEntry now records (Z.of_nat i)) (rev (seq 0 n)))%list.
Proof.
  induction n as [|n IH]; intros result.
  - simpl. now rewrite app_nil_r.
  - simpl last7Loop. rewrite IH, seq_S, rev_app_distr. simpl.
    now rewrite <- app_assoc.
Qed.

Lemma getLast7DaysData_list (now : Z) (g : Memento) :
  getLast7DaysData now g
  = map (fun i => dayEntry now (getPomodoroRecords g) i) [6; 5; 4; 3; 2; 1; 0].
Proof.
  unfold getLast7DaysData. rewrite last7Loop_unfold. reflexivity.
Qed.

End History.

(** A log to run the recorder on: two intervals completed on 5 January
    2024 (China Standard Time), one cancelled interval on the 3rd, and
    one interval completed by a restored timer, which has no start. *)
Definition sampleLog : Data.Memento :=
  {| Data.pomodoroRecords := Some
       [ {| Data.startTime := Some 1704243600000; Data.endTime := 1704244000000;
            Data.duration := 25; Data.completed := false |};
         {| Data.startTime := Some 1704418200000; Data.endTime := 1704419700000;
            Data.duration := 25; Data.completed := true |};
         {| Data.startTime := None; Data.endTime := 1704430000000;
            Data.duration := 25; Data.completed := true |};
         {| Data.startTime := Some 1704438000000; Data.endTime := 1704439800000;
            Data.duration := 30; Data.completed := true |} ];
     Data.timerState := None |}.

Example sampleLog_last7 :
  map (fun e => (Data.date e, Data.day_completed e, Data.day_workTime e))
      (@Data.getLast7DaysData cst 1704441789000 sampleLog)
  = [ ("2023/12/30", 0, 0); ("2023/12/31", 0, 0); ("2024/1/1", 0, 0);
      ("2024/1/2", 0, 0); ("2024/1/3", 0, 0); ("2024/1/4", 0, 0);
      ("2024/1/5", 2, 55) ]%string.
Proof. vm_compute. reflexivity. Qed.

Section HistoryClaims.
Import Host Data.

(** C9. For every record log, the empty one included, the rolling
    aggregate has exactly 7 entries; the entry at position [k] is the
    aggregate of the day [6 - k] days before today: its label, the number
    of completed records that start in [[dayStart, dayStart + 24h)] and
    the sum of their durations.  The days come oldest first, the last one
    is today, and a day without a completed record has a zero entry. *)
Theorem getLast7DaysData_seven_days {cal : Calendar} (now : Z) (g : Memento) :
  let records := getPomodoroRecords g in
  let result := getLast7DaysData now g in
  let day (k : nat) := addDays now (- Z.of_nat (6 - k)) in
  List.length result = 7%nat
  /\ (forall k, (k < 7)%nat ->
        nth_error result k
        = Some {| date := toLocaleDateString (day k);
                  day_completed := completedCount (startOfDay (day k)) records;
                  day_workTime := completedMinutes (startOfDay (day k)) records |})
  /\ (forall k k', (k < k' < 7)%nat ->
        startOfDay (day k) < startOfDay (day k'))
  /\ day 6%nat = now
  /\ (forall k entry,
        nth_error result k = Some entry ->
        (forall record, In record records ->
           completed record && startsInDay (startOfDay (day k)) record = false) ->
        day_completed entry = 0 /\ day_workTime entry = 0).
Proof.
  intros records result day.
  assert (Hnth : forall k, (k < 7)%nat ->
    nth_error result k
    = Some {| date := toLocaleDateString (day k);
              day_completed := completedCount (startOfDay (day k)) records;
              day_workTime := completedMinutes (startOfDay (day k)) records |}).
  { intros k Hk. subst result. rewrite getLast7DaysData_list.
    fold records. subst day.
    do 7 (destruct k as [|k]; [simpl; now rewrite dayEntry_aggregate |]).
    lia. }
  assert (Hlen : List.length result = 7%nat).
  { subst result. rewrite getLast7DaysData_list. reflexivity. }
  split; [exact Hlen |].
  split; [exact Hnth |].
  split; [| split].
  - intros k k' Hk. subst day. apply startOfDay_earlier. lia.
  - subst day. simpl. apply addDays_0.
  - intros k entry Hentry Hnone.
    destruct (Nat.lt_ge_cases k 7) as [Hk | Hk].
    + rewrite (Hnth k Hk) in Hentry. injection Hentry as <-. simpl.
      now apply no_completed_zero.
    + assert (Hout : nth_error result k = None)
        by (apply nth_error_None; lia).
      rewrite Hout in Hentry. discriminate Hentry.
Qed.

Lemma getLast7DaysData_seven_days_witness :
  List.length (@getLast7DaysData cst 1704441789000 sampleLog) = 7%nat
  /\ List.length (@getLast7DaysData cst 1704441789000 emptyMemento) = 7%nat.
Proof.
  split.
  - exact (proj1 (@getLast7DaysData_seven_days cst 1704441789000 sampleLog)).
  - exact (proj1 (@getLast7DaysData_seven_days cst 1704441789000 emptyMemento)).
Defined.

End HistoryClaims.

Section ExportClaims.
Import Host Data.

Lemma string_app_assoc (a b c : string) :
  ((a ++ b) ++ c = a ++ (b ++ c))%string.
Proof.
  induction a as [|x a IH]; simpl; [reflexivity | now rewrite IH].
Qed.

(** A row of the export without the line feed that ends it. *)
Definition csvLine {cal : Calendar} (record : PomodoroRecord) : string :=
  (toLocaleString (dateOf (startTime record)) ++ ","
     ++ toLocaleString (endTime record) ++ ","
     ++ numberToString (duration record) ++ ","
     ++ (if completed record then "完成" else "取消"))%string.

Definition nonEmpty (s : string) : bool :=
  match s with
  | EmptyString => false
  | String _ _ => true
  end.

Lemma csvRow_csvLine {cal : Calendar} (record : PomodoroRecord) :
  csvRow record = (csvLine record ++ String newline "")%string.
Proof.
  unfold csvRow, csvLine. now rewrite !string_app_assoc.
Qed.

Lemma oneLine_csvHeader : oneLine csvHeader.
Proof.
  unfold oneLine. vm_compute. intuition discriminate.
Qed.

Lemma oneLine_csvLine {cal : Calendar} (record : PomodoroRecord) :
  oneLine (csvLine record).
Proof.
  unfold csvLine.
  repeat first
    [ apply toLocaleString_one_line
    | apply oneLine_numberToString
    | match goal with |- oneLine (_ ++ _) => apply oneLine_app end
    | match goal with |- oneLine (if ?b then _ else _) => destruct b end
    | (unfold oneLine; vm_compute; intuition discriminate) ].
Qed.

Lemma nonEmpty_app (a b : string) :
  nonEmpty b = true -> nonEmpty (a ++ b) = true.
Proof. destruct a; simpl; auto. Qed.

Lemma nonEmpty_csvLine {cal : Calendar} (record : PomodoroRecord) :
  nonEmpty (csvLine record) = true.
Proof. unfold csvLine. now apply nonEmpty_app. Qed.

(** Splitting takes a first line off a text. *)
Lemma splitOn_line (line rest : string) :
  oneLine line ->
  splitOn newline (line ++ String newline rest)
  = line :: splitOn newline rest.
Proof.
  unfold oneLine. induction line as [|c line IH]; intros Hline.
  - simpl. reflexivity.
  - simpl in Hline. simpl append. simpl splitOn.
    destruct (Ascii.eqb_spec c newline) as [-> | Hc]; [tauto |].
    rewrite IH by tauto. reflexivity.
Qed.

Lemma export_fold {cal : Calendar} (records : list PomodoroRecord) (csv : string) :
  fold_left (fun csv record => (csv ++ csvRow record)%string) records csv
  = (csv ++ String.concat "" (map csvRow records))%string.
Proof.
  revert csv. induction records as [|r rest IH]; intros csv.
  - simpl. clear. induction csv; simpl; congruence.
  - simpl fold_left. rewrite IH, string_app_assoc. f_equal.
    simpl. destruct rest; simpl; [| reflexivity].
    clear. induction (csvRow r); simpl; congruence.
Qed.

Lemma splitOn_rows {cal : Calendar} (records : list PomodoroRecord) :
  splitOn newline (String.concat "" (map csvRow records))
  = (map csvLine records ++ [EmptyString])%list.
Proof.
  induction records as [|r rest IH]; [reflexivity |].
  assert (Hcat : String.concat "" (map csvRow (r :: rest))
                 = (csvRow r ++ String.concat "" (map csvRow rest))%string).
  { simpl. destruct rest; simpl; [| reflexivity].
    clear. induction (csvRow r); simpl; congruence. }
  rewrite Hcat, csvRow_csvLine, string_app_assoc. simpl append at 2.
  rewrite splitOn_line by apply oneLine_csvLine.
  simpl. now rewrite IH.
Qed.

Lemma exportToCSV_pieces {cal : Calendar} (g : Memento) :
  splitOn newline (exportToCSV g)
  = (csvHeader :: map csvLine (getPomodoroRecords g) ++ [EmptyString])%list.
Proof.
  unfold exportToCSV. rewrite export_fold, string_app_assoc.
  simpl append at 2.
  rewrite splitOn_line by apply oneLine_csvHeader.
  now rewrite splitOn_rows.
Qed.

(** C10, as the code has it. For every record log, splitting the export
    on line feeds gives the header, then one row per record of the log in
    the order of the log, then one empty piece, because the last row ends
    with a line feed too: the pieces are [length + 2], the last one is
    empty and the pieces that are not empty, the rows, are [length + 1]. *)
Theorem exportToCSV_split_rows {cal : Calendar} (g : Memento) :
  let records := getPomodoroRecords g in
  let pieces := splitOn newline (exportToCSV g) in
  pieces = (csvHeader :: map csvLine records ++ [EmptyString])%list
  /\ List.length pieces = (List.length records + 2)%nat
  /\ last pieces csvHeader = EmptyString
  /\ List.length (filter nonEmpty pieces) = (List.length records + 1)%nat.
Proof.
  intros records pieces. subst pieces. rewrite exportToCSV_pieces.
  fold records. split; [reflexivity |]. split; [| split].
  - simpl. rewrite length_app, length_map. simpl. lia.
  - change (csvHeader :: map csvLine records ++ [EmptyString])%list
      with ((csvHeader :: map csvLine records) ++ [EmptyString])%list.
    apply last_last.
  - simpl filter. change (nonEmpty csvHeader) with true. simpl List.length.
    f_equal. rewrite filter_app. simpl. rewrite app_nil_r.
    replace (filter nonEmpty (map csvLine records)) with (map csvLine records).
    + rewrite length_map. lia.
    + clear. induction records as [|r rest IH]; [reflexivity |].
      simpl. rewrite nonEmpty_csvLine. now rewrite <- IH.
Qed.

(** C10, as the specification states it, fails: the pieces of the export
    of the empty log are two, not one, and those of a log of four records
    are six, not five. *)
Lemma exportToCSV_split_count_fails :
  List.length (splitOn newline (@exportToCSV cst emptyMemento))
  <> (List.length (getPomodoroRecords emptyMemento) + 1)%nat
  /\ List.length (splitOn newline (@exportToCSV cst sampleLog))
     <> (List.length (getPomodoroRecords sampleLog) + 1)%nat.
Proof. split; vm_compute; discriminate. Qed.

Example sampleLog_export :
  splitOn newline (@exportToCSV cst sampleLog)
  = [ csvHeader;
      "2024/1/3 09:00:00,2024/1/3 09:06:40,25,取消";
      "2024/1/5 09:30:00,2024/1/5 09:55:00,25,完成";
      "1970/1/1 08:00:00,2024/1/5 12:46:40,25,完成";
      "2024/1/5 15:00:00,2024/1/5 15:30:00,30,完成";
      "" ]%string.
Proof. vm_compute. reflexivity. Qed.

End ExportClaims.

(** ** The timer *)

Module TimerFacts.
Import Host Notification Timer.

(** Runs the methods of a goal on the world they are applied to: the
    methods, the monad and the projections are unfolded, arithmetic and
    lists are left as they are written. *)
Ltac run :=
  cbv beta iota zeta delta
    [exec bind ret this store modifyTimer modifyStore
     Date_now showInformationMessage statusBar_update
     set_state set_remainingTime set_totalDuration set_intervalId
     set_completedPomodoros set_consecutivePomodoros set_startTime
     set_pauseTime set_previousState withRemainingTime
     getConfig stopTimer startTimer saveState getStatusText getTooltipText
     updateStatusBar resetTimer startBreak handleTimerEnd tick startWork
     pause resume cancel restoreState dispose activate newWorld newTimer
     falsy
     notifyWorkEnd notifyBreakEnd showNotification playSound
     state remainingTime totalDuration intervalId completedPomodoros
     consecutivePomodoros startTime pauseTime previousState
     timer globalState statusBarItem window clock configuration
     Data.saveTimerState Data.recordPomodoro Data.getTimerState
     Data.getPomodoroRecords Data.pomodoroRecords Data.timerState
     Data.sd_state Data.sd_remainingTime Data.sd_totalDuration
     Data.sd_completedPomodoros Data.sd_consecutivePomodoros
     Data.sd_timestamp
     TimerState_eqb negb andb fst snd].

(** Decides what a notification shows and runs on. *)
Ltac notified settings :=
  destruct (enableNotification (configOf settings)),
           (enableSound (configOf settings)); run.

(** Names the fields of a world. *)
Ltac fields w :=
  let t := fresh "t" in
  destruct w as [t ? ? ?]; destruct t;
  cbv beta iota delta
    [state remainingTime totalDuration intervalId completedPomodoros
     consecutivePomodoros startTime pauseTime previousState
     timer globalState statusBarItem window] in *.

End TimerFacts.

Section TimerLemmas.
Import Host Notification Timer TimerFacts.
Context {cal : Calendar}.

Definition records (w : World) : list Data.PomodoroRecord :=
  Data.getPomodoroRecords (globalState w).

Definition at_ (now : Z) (config : Settings) : Env :=
  {| clock := now; configuration := config |}.

(** The break that follows a work interval when [consecutive] intervals
    are done: its state and its minutes. *)
Definition breakFor (config : TimerConfig) (consecutive : Z) : TimerState * Z :=
  if consecutive >=? longBreakInterval config
  then (LONG_BREAK, longBreakDuration config)
  else (SHORT_BREAK, shortBreakDuration config).

(** The messages a notification shows: the text when notifications are
    enabled, then the bell when sound is. *)
Definition shown (message : Message) (config : TimerConfig) : list Message :=
  ((if enableNotification config then [message] else [])
     ++ (if enableSound config then [MsgBell] else []))%list.

Definition breakMessage (config : TimerConfig) (consecutive : Z) : Message :=
  if consecutive >=? longBreakInterval config
  then MsgStartLongBreak (longBreakDuration config)
  else MsgStartShortBreak (shortBreakDuration config).

(** A tick above one second left counts down and nothing else: no
    record, no message, no change of state. *)
Lemma tick_counts_down (e : Env) (w : World) :
  intervalId (timer w) = true ->
  1 < remainingTime (timer w) ->
  timer (exec tick e w)
  = withRemainingTime (remainingTime (timer w) - 1) (timer w)
  /\ Data.pomodoroRecords (globalState (exec tick e w))
     = Data.pomodoroRecords (globalState w)
  /\ window (exec tick e w) = window w.
Proof.
  intros Hid Hr. fields w. subst.
  destruct state0; run;
    (destruct (Z.leb_spec (remainingTime0 - 1) 0) as [H | H]; [lia |]);
    cbn; auto.
Qed.

Lemma ticks_count_down (config : Settings) (clocks : list Z) :
  forall w,
    intervalId (timer w) = true ->
    Z.of_nat (List.length clocks) < remainingTime (timer w) ->
    timer (ticks config clocks w)
    = withRemainingTime (remainingTime (timer w) - Z.of_nat (List.length clocks))
                        (timer w)
    /\ Data.pomodoroRecords (globalState (ticks config clocks w))
       = Data.pomodoroRecords (globalState w)
    /\ window (ticks config clocks w) = window w.
Proof.
  induction clocks as [|now rest IH]; intros w Hid Hr.
  - simpl. rewrite Z.sub_0_r.
    destruct w as [t g b m]; destruct t; repeat split; reflexivity.
  - simpl ticks. simpl List.length in *.
    destruct (tick_counts_down {| clock := now; configuration := config |} w Hid)
      as (Ht & Hg & Hw); [lia |].
    destruct (IH (exec tick {| clock := now; configuration := config |} w))
      as (Ht' & Hg' & Hw').
    + rewrite Ht. destruct w as [t g b m]; destruct t; assumption.
    + rewrite Ht. cbn. lia.
    + rewrite Ht', Hg', Hw', Ht, Hg, Hw.
      split; [| split; reflexivity].
      destruct w as [t g b m]; destruct t.
      unfold withRemainingTime; cbn in *. f_equal; lia.
Qed.

(** The tick that brings a work interval to zero. *)
Lemma tick_ends_work (e : Env) (w : World) :
  state (timer w) = WORKING ->
  intervalId (timer w) = true ->
  remainingTime (timer w) <= 1 ->
  let config := configOf (configuration e) in
  let consecutive := consecutivePomodoros (timer w) + 1 in
  let w' := exec tick e w in
  completedPomodoros (timer w') = completedPomodoros (timer w) + 1
  /\ consecutivePomodoros (timer w') = consecutive
  /\ records w'
     = (records w ++ [ {| Data.startTime := startTime (timer w);
                          Data.endTime := clock e;
                          Data.duration := workDuration config;
                          Data.completed := true |} ])%list
  /\ window w'
     = (window w ++ shown MsgWorkEnd config ++ [breakMessage config consecutive])%list
  /\ state (timer w') = fst (breakFor config consecutive)
  /\ totalDuration (timer w') = snd (breakFor config consecutive) * 60
  /\ remainingTime (timer w') = snd (breakFor config consecutive) * 60
  /\ intervalId (timer w') = true
  /\ startTime (timer w') = Some (clock e).
Proof.
  intros Hs Hid Hr config consecutive w'. subst w' consecutive config.
  fields w. subst. destruct e as [now settings].
  unfold records, breakFor, breakMessage, shown. run.
  destruct (Z.leb_spec (remainingTime0 - 1) 0) as [_ | H]; [| lia].
  destruct (enableNotification (configOf settings)),
           (enableSound (configOf settings)); run;
    destruct (consecutivePomodoros0 + 1 >=? longBreakInterval (configOf settings));
    run; rewrite <- ?app_assoc; repeat split; reflexivity.
Qed.

End TimerLemmas.

Section WorkInterval.
Import Host Notification Timer TimerFacts.
Context {cal : Calendar}.

(** [startWork] outside of WORKING starts an interval of the configured
    minutes. *)
Lemma startWork_starts (e : Env) (w : World) :
  state (timer w) <> WORKING ->
  let minutes := workDuration (configOf (configuration e)) in
  let w' := exec startWork e w in
  state (timer w') = WORKING
  /\ totalDuration (timer w') = minutes * 60
  /\ remainingTime (timer w') = minutes * 60
  /\ intervalId (timer w') = true
  /\ startTime (timer w') = Some (clock e)
  /\ completedPomodoros (timer w') = completedPomodoros (timer w)
  /\ consecutivePomodoros (timer w') = consecutivePomodoros (timer w)
  /\ pauseTime (timer w') = pauseTime (timer w)
  /\ previousState (timer w') = previousState (timer w)
  /\ records w' = records w
  /\ window w' = (window w ++ [MsgStartWork minutes])%list.
Proof.
  intros Hs minutes w'. subst w' minutes. fields w. unfold records.
  destruct state0; try congruence; destruct intervalId0; run;
    repeat split; reflexivity.
Qed.

(** While less than the whole interval has been counted, the timer is
    still working and has recorded nothing. *)
Lemma work_interval_running (config : Settings) (now : Z) (clocks : list Z) (w : World) :
  state (timer w) <> WORKING ->
  Z.of_nat (List.length clocks) < workDuration (configOf config) * 60 ->
  let minutes := workDuration (configOf config) in
  let running := ticks config clocks (exec startWork (at_ now config) w) in
  state (timer running) = WORKING
  /\ remainingTime (timer running) = minutes * 60 - Z.of_nat (List.length clocks)
  /\ intervalId (timer running) = true
  /\ startTime (timer running) = Some now
  /\ completedPomodoros (timer running) = completedPomodoros (timer w)
  /\ consecutivePomodoros (timer running) = consecutivePomodoros (timer w)
  /\ records running = records w
  /\ window running = (window w ++ [MsgStartWork minutes])%list.
Proof.
  intros Hs Hlen. cbv zeta.
  destruct (startWork_starts (at_ now config) w Hs)
    as (S1 & S2 & S3 & S4 & S5 & S6 & S7 & S8 & S9 & S10 & S11).
  cbn [at_ clock configuration] in S2, S3, S5, S11.
  destruct (ticks_count_down config clocks (exec startWork (at_ now config) w) S4)
    as (T1 & T2 & T3); [rewrite S3; exact Hlen |].
  unfold records, Data.getPomodoroRecords in *.
  rewrite T1, T2, T3. unfold withRemainingTime.
  cbn [state remainingTime intervalId startTime completedPomodoros
       consecutivePomodoros].
  rewrite S1, S3, S4, S5, S6, S7, S11.
  repeat split; try reflexivity. exact S10.
Qed.

(** The tick that counts the last second of the interval completes it. *)
Lemma work_interval_ends (config : Settings) (now nowEnd : Z) (clocks : list Z) (w : World) :
  state (timer w) <> WORKING ->
  Z.of_nat (List.length clocks) = workDuration (configOf config) * 60 - 1 ->
  let timerConfig := configOf config in
  let minutes := workDuration timerConfig in
  let running := ticks config clocks (exec startWork (at_ now config) w) in
  let w' := exec tick (at_ nowEnd config) running in
  let consecutive := consecutivePomodoros (timer w) + 1 in
  completedPomodoros (timer w') = completedPomodoros (timer w) + 1
  /\ consecutivePomodoros (timer w') = consecutive
  /\ records w'
     = (records w ++ [ {| Data.startTime := Some now;
                          Data.endTime := nowEnd;
                          Data.duration := minutes;
                          Data.completed := true |} ])%list
  /\ window w'
     = (window w ++ [MsgStartWork minutes] ++ shown MsgWorkEnd timerConfig
          ++ [breakMessage timerConfig consecutive])%list
  /\ state (timer w') = fst (breakFor timerConfig consecutive)
  /\ totalDuration (timer w') = snd (breakFor timerConfig consecutive) * 60
  /\ remainingTime (timer w') = snd (breakFor timerConfig consecutive) * 60
  /\ intervalId (timer w') = true
  /\ startTime (timer w') = Some nowEnd.
Proof.
  intros Hs Hlen. cbv zeta.
  destruct (work_interval_running config now clocks w Hs)
    as (R1 & R2 & R3 & R4 & R5 & R6 & R7 & R8); [lia |].
  destruct (tick_ends_work (at_ nowEnd config) _ R1 R3)
    as (E1 & E2 & E3 & E4 & E5 & E6 & E7 & E8 & E9); [lia |].
  cbn [configuration clock at_] in E2, E3, E4, E5, E6, E7, E9.
  rewrite R6 in E2, E4, E5, E6, E7.
  rewrite R5 in E1. rewrite R7, R4 in E3. rewrite R8 in E4.
  rewrite <- app_assoc in E4.
  repeat split; assumption.
Qed.

End WorkInterval.

(** ** Worlds and configurations to run the timer on *)

Definition defaults : Timer.Settings :=
  {| Timer.cfg_workDuration := None; Timer.cfg_shortBreakDuration := None;
     Timer.cfg_longBreakDuration := None; Timer.cfg_longBreakInterval := None;
     Timer.cfg_enableSound := None; Timer.cfg_enableNotification := None |}.

(** One minute of work, one of short break, two of long break, a long
    break after every second interval. *)
Definition quick : Timer.Settings :=
  {| Timer.cfg_workDuration := Some 1; Timer.cfg_shortBreakDuration := Some 1;
     Timer.cfg_longBreakDuration := Some 2; Timer.cfg_longBreakInterval := Some 2;
     Timer.cfg_enableSound := Some false; Timer.cfg_enableNotification := None |}.

(** Every duration configured as 0 minutes. *)
Definition zeroMinutes : Timer.Settings :=
  {| Timer.cfg_workDuration := Some 0; Timer.cfg_shortBreakDuration := Some 0;
     Timer.cfg_longBreakDuration := Some 0; Timer.cfg_longBreakInterval := None;
     Timer.cfg_enableSound := Some false; Timer.cfg_enableNotification := None |}.

(** A process that starts on an empty store. *)
Definition idleWorld : Timer.World := Timer.newWorld Data.emptyMemento.

(** The instants of [n] ticks a second apart, the first at [from + 1000]. *)
Fixpoint seconds (from : Z) (n : nat) : list Z :=
  match n with
  | O => []
  | S k => (from + 1000) :: seconds (from + 1000) k
  end.

Section WorkClaims.
Import Host Notification Timer TimerFacts.
Context {cal : Calendar}.

(** C2. A work interval of [d > 0] configured minutes started from IDLE
    is still WORKING with one second left after [60 d - 1] ticks; the
    next tick adds 1 to [completedPomodoros] and to
    [consecutivePomodoros], appends exactly one record, completed and of
    duration [d], calls the work-end notification (which shows its text
    unless notifications are disabled), and starts the long
    break when the new [consecutivePomodoros] is at least
    [longBreakInterval] and the short break otherwise, with its countdown
    running from the minutes of that break. *)
Theorem work_interval_completion
        (config : Settings) (d now nowEnd : Z) (clocks : list Z) (w : World) :
  state (timer w) = IDLE ->
  cfg_workDuration config = Some d ->
  0 < d ->
  Z.of_nat (List.length clocks) = d * 60 - 1 ->
  let timerConfig := configOf config in
  let running := ticks config clocks (exec startWork (at_ now config) w) in
  let w' := exec tick (at_ nowEnd config) running in
  let consecutive := consecutivePomodoros (timer w) + 1 in
  let long := consecutive >=? longBreakInterval timerConfig in
  (state (timer running) = WORKING
   /\ remainingTime (timer running) = 1
   /\ records running = records w)
  /\ completedPomodoros (timer w') = completedPomodoros (timer w) + 1
  /\ consecutivePomodoros (timer w') = consecutive
  /\ records w'
     = (records w ++ [ {| Data.startTime := Some now;
                          Data.endTime := nowEnd;
                          Data.duration := d;
                          Data.completed := true |} ])%list
  /\ window w'
     = (window w ++ [MsgStartWork d] ++ shown MsgWorkEnd timerConfig
          ++ [if long then MsgStartLongBreak (longBreakDuration timerConfig)
              else MsgStartShortBreak (shortBreakDuration timerConfig)])%list
  /\ (enableNotification timerConfig = true -> In MsgWorkEnd (window w'))
  /\ state (timer w') = (if long then LONG_BREAK else SHORT_BREAK)
  /\ totalDuration (timer w')
     = (if long then longBreakDuration timerConfig
        else shortBreakDuration timerConfig) * 60
  /\ remainingTime (timer w') = totalDuration (timer w')
  /\ intervalId (timer w') = true.
Proof.
  intros Hidle Hd Hpos Hlen timerConfig running w' consecutive long.
  assert (Hs : state (timer w) <> WORKING) by (rewrite Hidle; discriminate).
  assert (Hmin : workDuration (configOf config) = d).
  { unfold configOf. cbn. rewrite Hd. destruct d; cbn; try reflexivity; lia. }
  destruct (work_interval_running config now clocks w Hs)
    as (R1 & R2 & _ & _ & _ & _ & R7 & _); [rewrite Hmin; lia |].
  destruct (work_interval_ends config now nowEnd clocks w Hs)
    as (E1 & E2 & E3 & E4 & E5 & E6 & E7 & E8 & _); [rewrite Hmin; lia |].
  rewrite Hmin in R2, E3, E4.
  unfold breakFor, breakMessage in E4, E5, E6, E7.
  subst running w' timerConfig. subst long consecutive.
  split; [repeat split; [exact R1 | lia | exact R7] |].
  repeat split; try assumption.
  - intros Hon. rewrite E4. unfold shown. rewrite Hon.
    rewrite !in_app_iff. right. right. left. left. now left.
  - rewrite E5. now destruct (_ >=? _).
  - rewrite E6. now destruct (_ >=? _).
  - rewrite E6, E7. reflexivity.
Qed.

(** C6. [cancel] while WORKING appends no record (the store is left as
    it was), sets [consecutivePomodoros] to 0 and resets the machine:
    IDLE, nothing remaining, no total, no start time, no pause time, no
    interval registered; the one message shown is that of
    cancellation. *)
Theorem cancel_while_working (e : Env) (w : World) :
  state (timer w) = WORKING ->
  let w' := exec cancel e w in
  records w' = records w
  /\ globalState w' = globalState w
  /\ consecutivePomodoros (timer w') = 0
  /\ completedPomodoros (timer w') = completedPomodoros (timer w)
  /\ state (timer w') = IDLE
  /\ remainingTime (timer w') = 0
  /\ totalDuration (timer w') = 0
  /\ startTime (timer w') = None
  /\ pauseTime (timer w') = None
  /\ previousState (timer w') = IDLE
  /\ intervalId (timer w') = false
  /\ window w' = (window w ++ [MsgCancelled])%list.
Proof.
  intros Hs w'. subst w'. fields w. subst. unfold records.
  destruct intervalId0; run; repeat split; reflexivity.
Qed.

End WorkClaims.

Lemma work_interval_completion_witness :
  let w' := Timer.exec (@Timer.tick cst) (at_ 61000 quick)
              (@Timer.ticks cst quick (seconds 1000 59)
                 (Timer.exec (@Timer.startWork cst) (at_ 1000 quick) idleWorld)) in
  Timer.completedPomodoros (Timer.timer w') = 1
  /\ Timer.state (Timer.timer w') = Data.SHORT_BREAK
  /\ Timer.remainingTime (Timer.timer w') = 60.
Proof.
  pose proof (@work_interval_completion cst quick 1 1000 61000 (seconds 1000 59)
                idleWorld eq_refl eq_refl eq_refl eq_refl) as H.
  cbv zeta in H. destruct H as (_ & H1 & _ & _ & _ & _ & H5 & H6 & H7 & _).
  cbv zeta. split; [exact H1 | split; [exact H5 |]].
  rewrite H7, H6. reflexivity.
Defined.

Lemma cancel_while_working_witness :
  let working := Timer.exec (@Timer.startWork cst) (at_ 1000 quick) idleWorld in
  Timer.state (Timer.timer working) = Data.WORKING
  /\ Timer.state (Timer.timer (Timer.exec (@Timer.cancel cst) (at_ 5000 quick) working))
     = Data.IDLE.
Proof.
  split; [reflexivity |].
  exact (proj1 (proj2 (proj2 (proj2 (proj2
    (@cancel_while_working cst (at_ 5000 quick)
       (Timer.exec (@Timer.startWork cst) (at_ 1000 quick) idleWorld) eq_refl)))))).
Defined.

Section StartClaims.
Import Host Notification Timer TimerFacts.
Context {cal : Calendar}.

(** C5, as the code has it. [startWork] is without effect in the state
    WORKING only: there the timer, the store and the status bar are left
    as they were and one message is shown. In SHORT_BREAK, LONG_BREAK and
    PAUSED, as in IDLE, it starts a work interval: WORKING, the configured
    minutes as total and as remaining, the start time the present
    instant, the interval registered. *)
Theorem startWork_noop_only_when_working (e : Env) (w : World) :
  (state (timer w) = WORKING ->
     timer (exec startWork e w) = timer w
     /\ globalState (exec startWork e w) = globalState w
     /\ statusBarItem (exec startWork e w) = statusBarItem w
     /\ window (exec startWork e w) = (window w ++ [MsgAlreadyWorking])%list)
  /\ (state (timer w) = SHORT_BREAK \/ state (timer w) = LONG_BREAK
      \/ state (timer w) = PAUSED \/ state (timer w) = IDLE ->
     let minutes := workDuration (configOf (configuration e)) in
     state (timer (exec startWork e w)) = WORKING
     /\ totalDuration (timer (exec startWork e w)) = minutes * 60
     /\ remainingTime (timer (exec startWork e w)) = minutes * 60
     /\ startTime (timer (exec startWork e w)) = Some (clock e)
     /\ intervalId (timer (exec startWork e w)) = true
     /\ window (exec startWork e w) = (window w ++ [MsgStartWork minutes])%list).
Proof.
  split.
  - intros Hs. fields w. subst. run. repeat split; reflexivity.
  - intros Hs minutes.
    assert (Hnot : state (timer w) <> WORKING)
      by (destruct Hs as [H | [H | [H | H]]]; rewrite H; discriminate).
    destruct (startWork_starts e w Hnot)
      as (S1 & S2 & S3 & S4 & S5 & _ & _ & _ & _ & _ & S11).
    repeat split; assumption.
Qed.

(** C8, as the code has it. A duration configured as 0 minutes is read
    as not configured: the work interval runs the default 25 minutes. It
    starts with 1500 seconds, is still WORKING and without a record after
    any number of ticks below 1500, and completes on tick 1500 with a
    record of duration 25; a break configured as 0 minutes starts with
    the default 5 or 15 minutes. *)
Theorem zero_minutes_is_default
        (config : Settings) (now nowEnd : Z) (clocks : list Z) (w : World) :
  state (timer w) = IDLE ->
  cfg_workDuration config = Some 0 ->
  let started := exec startWork (at_ now config) w in
  let running := ticks config clocks started in
  let w' := exec tick (at_ nowEnd config) running in
  remainingTime (timer started) = 1500
  /\ (Z.of_nat (List.length clocks) < 1500 ->
        state (timer running) = WORKING
        /\ remainingTime (timer running) = 1500 - Z.of_nat (List.length clocks)
        /\ completedPomodoros (timer running) = completedPomodoros (timer w)
        /\ records running = records w)
  /\ (Z.of_nat (List.length clocks) = 1499 ->
        completedPomodoros (timer w') = completedPomodoros (timer w) + 1
        /\ records w'
           = (records w ++ [ {| Data.startTime := Some now;
                                Data.endTime := nowEnd;
                                Data.duration := 25;
                                Data.completed := true |} ])%list
        /\ (state (timer w') = SHORT_BREAK \/ state (timer w') = LONG_BREAK)
        /\ (cfg_shortBreakDuration config = Some 0 ->
            state (timer w') = SHORT_BREAK -> remainingTime (timer w') = 300)
        /\ (cfg_longBreakDuration config = Some 0 ->
            state (timer w') = LONG_BREAK -> remainingTime (timer w') = 900)).
Proof.
  intros Hidle Hzero started running w'.
  assert (Hs : state (timer w) <> WORKING) by (rewrite Hidle; discriminate).
  assert (Hmin : workDuration (configOf config) = 25)
    by (unfold configOf; cbn; now rewrite Hzero).
  split; [| split].
  - destruct (startWork_starts (at_ now config) w Hs) as (_ & _ & S3 & _).
    cbn [at_ clock configuration] in S3. rewrite Hmin in S3. exact S3.
  - intros Hlen.
    destruct (work_interval_running config now clocks w Hs)
      as (R1 & R2 & _ & _ & R5 & _ & R7 & _); [rewrite Hmin; lia |].
    rewrite Hmin in R2. repeat split; assumption.
  - intros Hlen.
    destruct (work_interval_ends config now nowEnd clocks w Hs)
      as (E1 & _ & E3 & _ & E5 & _ & E7 & _); [rewrite Hmin; lia |].
    rewrite Hmin in E3. subst started running w'.
    unfold breakFor in E5, E7.
    destruct (consecutivePomodoros (timer w) + 1 >=? longBreakInterval (configOf config));
      cbn [fst snd] in E5, E7.
    + repeat split; try assumption; [now right | |].
      * intros _ Hst. rewrite E5 in Hst. discriminate Hst.
      * intros Hcfg _. rewrite E7. unfold configOf. cbn. now rewrite Hcfg.
    + repeat split; try assumption; [now left | |].
      * intros Hcfg _. rewrite E7. unfold configOf. cbn. now rewrite Hcfg.
      * intros _ Hst. rewrite E5 in Hst. discriminate Hst.
Qed.

End StartClaims.

(** C5, as the specification states it, fails: in a short break
    [startWork] is not without effect, it starts a work interval. *)
Lemma startWork_in_break_starts_work :
  let inBreak :=
    Timer.exec (@Timer.tick cst) (at_ 61000 quick)
      (@Timer.ticks cst quick (seconds 1000 59)
         (Timer.exec (@Timer.startWork cst) (at_ 1000 quick) idleWorld)) in
  let after := Timer.exec (@Timer.startWork cst) (at_ 70000 quick) inBreak in
  Timer.state (Timer.timer inBreak) = Data.SHORT_BREAK
  /\ Timer.state (Timer.timer after) = Data.WORKING
  /\ Timer.timer after <> Timer.timer inBreak.
Proof.
  cbv zeta. split; [vm_compute; reflexivity |].
  split; [vm_compute; reflexivity |].
  intros H. apply (f_equal Timer.state) in H. vm_compute in H. discriminate H.
Qed.

Lemma startWork_noop_only_when_working_witness :
  let working := Timer.exec (@Timer.startWork cst) (at_ 1000 quick) idleWorld in
  Timer.timer (Timer.exec (@Timer.startWork cst) (at_ 2000 quick) working)
  = Timer.timer working.
Proof.
  exact (proj1 (proj1 (@startWork_noop_only_when_working cst (at_ 2000 quick)
    (Timer.exec (@Timer.startWork cst) (at_ 1000 quick) idleWorld)) eq_refl)).
Defined.

(** C8, as the specification states it, fails: with the work duration
    configured as 0 minutes the first tick completes nothing; the timer is
    still WORKING, with 1499 seconds left and no record. *)
Lemma zero_minutes_first_tick_completes_nothing :
  let w1 := Timer.exec (@Timer.tick cst) (at_ 2000 zeroMinutes)
              (Timer.exec (@Timer.startWork cst) (at_ 1000 zeroMinutes) idleWorld) in
  Timer.state (Timer.timer w1) = Data.WORKING
  /\ Timer.remainingTime (Timer.timer w1) = 1499
  /\ Timer.completedPomodoros (Timer.timer w1) = 0
  /\ records w1 = [].
Proof. vm_compute. repeat split; reflexivity. Qed.

Lemma zero_minutes_is_default_witness :
  Timer.remainingTime
    (Timer.timer (Timer.exec (@Timer.startWork cst) (at_ 1000 zeroMinutes) idleWorld))
  = 1500.
Proof.
  exact (proj1 (@zero_minutes_is_default cst zeroMinutes 1000 2000 []
                  idleWorld eq_refl eq_refl)).
Defined.

Section ConsecutiveClaims.
Import Host Notification Timer TimerFacts.
Context {cal : Calendar}.

(** C4, as the code has it. [consecutivePomodoros] is set to 0 when the
    countdown of a long break reaches 0 and when [cancel] is called in
    the state WORKING. The start of a break, long or short, leaves it as
    it is: a long break that a completed work interval starts begins with
    the count at least [longBreakInterval]. The completion of a work
    interval adds 1; the end of a short break, [startWork], [pause],
    [resume] and a tick that does not reach 0 leave it as it is. *)
Theorem consecutive_reset_points (e : Env) (w : World) :
  let count (w : World) := consecutivePomodoros (timer w) in
  count (exec startBreak e w) = count w
  /\ (state (timer w) = LONG_BREAK -> count (exec handleTimerEnd e w) = 0)
  /\ (state (timer w) = LONG_BREAK -> intervalId (timer w) = true ->
      remainingTime (timer w) <= 1 ->
      count (exec tick e w) = 0 /\ state (timer (exec tick e w)) = IDLE)
  /\ (state (timer w) = WORKING -> count (exec cancel e w) = 0)
  /\ (state (timer w) = WORKING ->
      count (exec handleTimerEnd e w) = count w + 1
      /\ (state (timer (exec handleTimerEnd e w)) = LONG_BREAK ->
          count (exec handleTimerEnd e w)
          >= longBreakInterval (configOf (configuration e))))
  /\ (state (timer w) = SHORT_BREAK -> count (exec handleTimerEnd e w) = count w)
  /\ count (exec startWork e w) = count w
  /\ count (exec pause e w) = count w
  /\ count (exec resume e w) = count w
  /\ (1 < remainingTime (timer w) -> count (exec tick e w) = count w).
Proof.
  intros count. subst count. destruct e as [now settings]. fields w.
  split; [| split; [| split; [| split; [| split; [| split; [| split; [| split; [| split]]]]]]]].
  - destruct intervalId0; run;
      destruct (consecutivePomodoros0 >=? longBreakInterval (configOf settings));
      run; reflexivity.
  - intros ->. destruct intervalId0; run; notified settings; reflexivity.
  - intros -> -> Hr. run.
    destruct (Z.leb_spec (remainingTime0 - 1) 0) as [_ | H]; [| lia].
    notified settings; split; reflexivity.
  - intros ->. destruct intervalId0; run; reflexivity.
  - intros ->.
    destruct intervalId0; run; notified settings;
      destruct (Z.geb_spec (consecutivePomodoros0 + 1)
                           (longBreakInterval (configOf settings)));
      run; split; try reflexivity; intros Hst; try discriminate Hst; lia.
  - intros ->. destruct intervalId0; run; notified settings; reflexivity.
  - destruct state0, intervalId0; run; reflexivity.
  - destruct state0, intervalId0; run; reflexivity.
  - destruct state0, intervalId0; run; try reflexivity;
      destruct pauseTime0 as [[| |]|]; run; try reflexivity;
      destruct previousState0; reflexivity.
  - intros Hr. destruct intervalId0; run; [| reflexivity].
    destruct (Z.leb_spec (remainingTime0 - 1) 0) as [H | _]; [lia |].
    destruct state0; reflexivity.
Qed.

End ConsecutiveClaims.

(** The world after [n] work intervals of the configuration [quick]: each
    one starts when the break before it has run out, and the last one is
    left at the start of its break. *)
Fixpoint afterIntervals (n : nat) (w : Timer.World) : Timer.World :=
  match n with
  | O => w
  | S k =>
      let ended := afterIntervals k w in
      let idle := @Timer.ticks cst quick (seconds 0 120) ended in
      Timer.exec (@Timer.tick cst) (at_ 61000 quick)
        (@Timer.ticks cst quick (seconds 1000 59)
           (Timer.exec (@Timer.startWork cst) (at_ 1000 quick) idle))
  end.

(** C4, as the specification states it, fails: where the second work
    interval ends and the long break starts, the count is 2, not 0. *)
Lemma long_break_starts_without_reset :
  let w := afterIntervals 2 idleWorld in
  Timer.state (Timer.timer w) = Data.LONG_BREAK
  /\ Timer.remainingTime (Timer.timer w) = Timer.totalDuration (Timer.timer w)
  /\ Timer.consecutivePomodoros (Timer.timer w) = 2
  /\ Timer.consecutivePomodoros (Timer.timer w) <> 0.
Proof. vm_compute. repeat split; try reflexivity. discriminate. Qed.

Lemma consecutive_reset_points_witness :
  let w := afterIntervals 2 idleWorld in
  Timer.consecutivePomodoros
    (Timer.timer (Timer.exec (@Timer.handleTimerEnd cst) (at_ 200000 quick) w)) = 0.
Proof.
  exact (proj1 (proj2 (@consecutive_reset_points cst (at_ 200000 quick)
                         (afterIntervals 2 idleWorld))) eq_refl).
Defined.

Section RestoreClaims.
Import Host Notification Timer TimerFacts.
Context {cal : Calendar}.

(** The world [restoreState] has built when it has read the snapshot and
    set the seconds left: the five saved fields over the timer of the
    process. *)
Definition loaded (saved : Data.TimerStateData) (remaining : Z) (running : bool)
           (w : World) : World :=
  {| timer :=
       {| state := Data.sd_state saved;
          remainingTime := remaining;
          totalDuration := Data.sd_totalDuration saved;
          intervalId := running;
          completedPomodoros := Data.sd_completedPomodoros saved;
          consecutivePomodoros := Data.sd_consecutivePomodoros saved;
          startTime := startTime (timer w);
          pauseTime := pauseTime (timer w);
          previousState := previousState (timer w) |};
     globalState := globalState w;
     statusBarItem := statusBarItem w;
     window := window w |}.

(** C1. For every stored snapshot in the state WORKING, SHORT_BREAK or
    LONG_BREAK, [restoreState] computes
    [remaining = max 0 (saved remaining - floor ((now - timestamp) / 1000))].
    When it is positive, the countdown goes on from it in the saved
    state: no record, no message, the counters those of the snapshot.
    Otherwise the result is that of one completion step, the world a live
    tick reaching 0 gives: a snapshot of work counts the interval, records
    it and starts its break, whose countdown is left whole; a snapshot of
    a break ends in IDLE with the break-end notification, no break is
    started, nothing is recorded. *)
Theorem restoreState_running_snapshot
        (e : Env) (w : World) (saved : Data.TimerStateData) :
  Data.getTimerState (globalState w) = Some saved ->
  Data.sd_state saved = WORKING \/ Data.sd_state saved = SHORT_BREAK
  \/ Data.sd_state saved = LONG_BREAK ->
  let elapsed := (clock e - Data.sd_timestamp saved) / 1000 in
  let remaining := Z.max 0 (Data.sd_remainingTime saved - elapsed) in
  let config := configOf (configuration e) in
  let w' := exec restoreState e w in
  (0 < remaining ->
     timer w' = timer (loaded saved remaining true w)
     /\ records w' = records w
     /\ window w' = window w
     /\ Data.getTimerState (globalState w')
        = Some {| Data.sd_state := Data.sd_state saved;
                  Data.sd_remainingTime := remaining;
                  Data.sd_totalDuration := Data.sd_totalDuration saved;
                  Data.sd_completedPomodoros := Data.sd_completedPomodoros saved;
                  Data.sd_consecutivePomodoros := Data.sd_consecutivePomodoros saved;
                  Data.sd_timestamp := clock e |})
  /\ (remaining <= 0 ->
     w' = exec handleTimerEnd e (loaded saved 0 (intervalId (timer w)) w)
     /\ w' = exec tick e (loaded saved 1 true w)
     /\ (Data.sd_state saved = WORKING ->
         let consecutive := Data.sd_consecutivePomodoros saved + 1 in
         completedPomodoros (timer w') = Data.sd_completedPomodoros saved + 1
         /\ consecutivePomodoros (timer w') = consecutive
         /\ records w'
            = (records w ++ [ {| Data.startTime := startTime (timer w);
                                 Data.endTime := clock e;
                                 Data.duration := workDuration config;
                                 Data.completed := true |} ])%list
         /\ window w'
            = (window w ++ shown MsgWorkEnd config
                 ++ [breakMessage config consecutive])%list
         /\ state (timer w') = fst (breakFor config consecutive)
         /\ remainingTime (timer w') = snd (breakFor config consecutive) * 60
         /\ intervalId (timer w') = true)
     /\ (Data.sd_state saved = SHORT_BREAK \/ Data.sd_state saved = LONG_BREAK ->
         state (timer w') = IDLE
         /\ remainingTime (timer w') = 0
         /\ intervalId (timer w') = false
         /\ completedPomodoros (timer w') = Data.sd_completedPomodoros saved
         /\ records w' = records w
         /\ globalState w' = globalState w
         /\ window w' = (window w ++ shown MsgBreakEnd config ++ [MsgBreakOver])%list)).
Proof.
  intros Hsaved Hstate elapsed remaining config w'.
  subst w' config. destruct e as [now settings].
  destruct saved as [ss sr st sc sk sts].
  cbn [clock configuration Data.sd_state Data.sd_remainingTime
       Data.sd_totalDuration Data.sd_completedPomodoros
       Data.sd_consecutivePomodoros Data.sd_timestamp] in *.
  fields w. unfold records, loaded, breakFor, breakMessage, shown.
  unfold Data.getTimerState in Hsaved.
  destruct globalState0 as [recs snap]. cbn [Data.timerState] in Hsaved.
  subst snap.
  split.
  - intros Hpos.
    destruct Hstate as [-> | [-> | ->]]; run; fold elapsed; fold remaining;
      (destruct (Z.gtb_spec remaining 0) as [_ | H]; [| lia]);
      destruct intervalId0; repeat split; reflexivity.
  - intros Hzero.
    assert (Hr : remaining = 0) by lia.
    destruct Hstate as [-> | [-> | ->]]; run; fold elapsed; fold remaining;
      rewrite Hr; change (0 >? 0) with false;
      change (1 - 1 <=? 0) with true; run;
      destruct intervalId0; run; notified settings;
      try destruct (sk + 1 >=? longBreakInterval (configOf settings)); run;
      rewrite <- ?app_assoc;
      (split; [reflexivity |]); (split; [reflexivity |]);
      (split; [intros Hw; try discriminate Hw; repeat split; reflexivity |]);
      intros [Hb | Hb]; try discriminate Hb; repeat split; reflexivity.
Qed.

End RestoreClaims.

(** A timer that has worked for thirty seconds of a one-minute interval:
    the process, and the store it leaves behind. *)
Definition halfway : Timer.World :=
  @Timer.ticks cst quick (seconds 1000 30)
    (Timer.exec (@Timer.startWork cst) (at_ 1000 quick) idleWorld).

Example halfway_snapshot :
  Data.getTimerState (Timer.globalState halfway)
  = Some {| Data.sd_state := Data.WORKING; Data.sd_remainingTime := 30;
            Data.sd_totalDuration := 60; Data.sd_completedPomodoros := 0;
            Data.sd_consecutivePomodoros := 0; Data.sd_timestamp := 31000 |}.
Proof. vm_compute. reflexivity. Qed.

Lemma restoreState_running_snapshot_witness :
  let restarted :=
    Timer.exec (@Timer.restoreState cst) (at_ 41000 quick)
               (Timer.newWorld (Timer.globalState halfway)) in
  Timer.state (Timer.timer restarted) = Data.WORKING
  /\ Timer.remainingTime (Timer.timer restarted) = 20
  /\ records restarted = [].
Proof.
  pose proof (@restoreState_running_snapshot cst (at_ 41000 quick)
                (Timer.newWorld (Timer.globalState halfway))
                {| Data.sd_state := Data.WORKING; Data.sd_remainingTime := 30;
                   Data.sd_totalDuration := 60; Data.sd_completedPomodoros := 0;
                   Data.sd_consecutivePomodoros := 0; Data.sd_timestamp := 31000 |}
                eq_refl (or_introl eq_refl)) as H.
  cbv zeta in H. destruct H as [H _]. specialize (H eq_refl).
  destruct H as (Ht & Hr & _). cbv zeta.
  rewrite Ht, Hr. repeat split; reflexivity.
Defined.

Section ResumeClaims.
Import Host Notification Timer TimerFacts.
Context {cal : Calendar}.

(** [resume] on a paused timer without a pause time shows a message and
    changes nothing else. *)
Lemma resume_without_pauseTime (e : Env) (w : World) :
  state (timer w) = PAUSED ->
  pauseTime (timer w) = None ->
  exec resume e w
  = {| timer := timer w; globalState := globalState w;
       statusBarItem := statusBarItem w;
       window := (window w ++ [MsgPauseTimeLost])%list |}.
Proof.
  intros Hs Hp. fields w. subst. run. reflexivity.
Qed.

(** [n] calls of [resume], at the instants [clocks]. *)
Fixpoint resumes (config : Settings) (clocks : list Z) (w : World) : World :=
  match clocks with
  | [] => w
  | now :: rest => resumes config rest (exec resume (at_ now config) w)
  end.

Lemma resumes_without_pauseTime (config : Settings) (clocks : list Z) :
  forall w,
    state (timer w) = PAUSED ->
    pauseTime (timer w) = None ->
    timer (resumes config clocks w) = timer w
    /\ globalState (resumes config clocks w) = globalState w.
Proof.
  induction clocks as [|now rest IH]; intros w Hs Hp; [split; reflexivity |].
  simpl resumes. rewrite resume_without_pauseTime by assumption.
  destruct (IH {| timer := timer w; globalState := globalState w;
                  statusBarItem := statusBarItem w;
                  window := (window w ++ [MsgPauseTimeLost])%list |} Hs Hp)
    as [Ht Hg].
  rewrite Ht, Hg. split; reflexivity.
Qed.

(** C7. The snapshot [pause] writes holds the state PAUSED, the seconds
    left, the total and the two counters, and neither the pause time nor
    the state paused from. A process that starts on a snapshot in the
    state PAUSED is PAUSED with no pause time and the previous state
    IDLE; there [resume] leaves the timer, the store and the status bar
    as they are and shows the message that the pause time is lost, and
    so does any number of calls of [resume]. *)
Theorem paused_snapshot_cannot_resume
        (e1 e2 : Env) (g : Data.Memento) (saved : Data.TimerStateData)
        (clocks : list Z) :
  Data.getTimerState g = Some saved ->
  Data.sd_state saved = PAUSED ->
  let restarted := exec activate e1 (newWorld g) in
  let resumed := exec resume e2 restarted in
  (forall e0 w,
      state (timer w) = WORKING \/ state (timer w) = SHORT_BREAK
      \/ state (timer w) = LONG_BREAK ->
      Data.getTimerState (globalState (exec pause e0 w))
      = Some {| Data.sd_state := PAUSED;
                Data.sd_remainingTime := remainingTime (timer w);
                Data.sd_totalDuration := totalDuration (timer w);
                Data.sd_completedPomodoros := completedPomodoros (timer w);
                Data.sd_consecutivePomodoros := consecutivePomodoros (timer w);
                Data.sd_timestamp := clock e0 |})
  /\ state (timer restarted) = PAUSED
  /\ remainingTime (timer restarted) = Data.sd_remainingTime saved
  /\ pauseTime (timer restarted) = None
  /\ previousState (timer restarted) = IDLE
  /\ intervalId (timer restarted) = false
  /\ timer resumed = timer restarted
  /\ globalState resumed = globalState restarted
  /\ statusBarItem resumed = statusBarItem restarted
  /\ window resumed = (window restarted ++ [MsgPauseTimeLost])%list
  /\ state (timer (resumes (configuration e2) clocks restarted)) = PAUSED.
Proof.
  intros Hsaved Hstate restarted resumed.
  assert (Hrestarted :
    state (timer restarted) = PAUSED
    /\ remainingTime (timer restarted) = Data.sd_remainingTime saved
    /\ pauseTime (timer restarted) = None
    /\ previousState (timer restarted) = IDLE
    /\ intervalId (timer restarted) = false).
  { subst restarted. destruct g as [recs snap].
    unfold Data.getTimerState in Hsaved. cbn [Data.timerState] in Hsaved.
    subst snap. destruct saved as [ss sr st sc sk sts].
    cbn [Data.sd_state Data.sd_remainingTime] in *. subst ss.
    run. repeat split; reflexivity. }
  destruct Hrestarted as (R1 & R2 & R3 & R4 & R5).
  split.
  { intros e0 w Hw. fields w.
    destruct Hw as [-> | [-> | ->]]; destruct intervalId0; run; reflexivity. }
  repeat (split; [assumption |]).
  subst resumed. rewrite (resume_without_pauseTime e2 restarted R1 R3).
  cbn [timer globalState statusBarItem window].
  repeat (split; [reflexivity |]).
  destruct (resumes_without_pauseTime (configuration e2) clocks restarted R1 R3)
    as [Ht _].
  rewrite Ht. exact R1.
Qed.

End ResumeClaims.

(** A timer paused after thirty seconds of work. *)
Definition pausedHalfway : Timer.World :=
  Timer.exec (@Timer.pause cst) (at_ 31500 quick) halfway.

Example pausedHalfway_snapshot :
  Data.getTimerState (Timer.globalState pausedHalfway)
  = Some {| Data.sd_state := Data.PAUSED; Data.sd_remainingTime := 30;
            Data.sd_totalDuration := 60; Data.sd_completedPomodoros := 0;
            Data.sd_consecutivePomodoros := 0; Data.sd_timestamp := 31500 |}.
Proof. vm_compute. reflexivity. Qed.

Lemma paused_snapshot_cannot_resume_witness :
  let restarted :=
    Timer.exec (@Timer.activate cst) (at_ 90000 quick)
               (Timer.newWorld (Timer.globalState pausedHalfway)) in
  Timer.state (Timer.timer restarted) = Data.PAUSED
  /\ Timer.timer (Timer.exec (@Timer.resume cst) (at_ 95000 quick) restarted)
     = Timer.timer restarted.
Proof.
  pose proof (@paused_snapshot_cannot_resume cst (at_ 90000 quick) (at_ 95000 quick)
                (Timer.globalState pausedHalfway)
                {| Data.sd_state := Data.PAUSED; Data.sd_remainingTime := 30;
                   Data.sd_totalDuration := 60; Data.sd_completedPomodoros := 0;
                   Data.sd_consecutivePomodoros := 0; Data.sd_timestamp := 31500 |}
                [] eq_refl eq_refl) as H.
  cbv zeta in H. destruct H as (_ & H1 & _ & _ & _ & _ & H6 & _).
  split; [exact H1 | exact H6].
Defined.

Section SnapshotClaims.
Import Host Notification Timer TimerFacts.
Context {cal : Calendar}.

(** The entry points that can write the store: the commands, the
    callback of the interval, and the calls of [activate] and of the
    disposal of the extension. *)
Inductive Entry : Type :=
| CallStartWork | CallPause | CallResume | CallCancel | CallTick
| CallUpdateStatusBar | CallRestoreState | CallDispose.

Definition call (c : Entry) : M unit :=
  match c with
  | CallStartWork => startWork
  | CallPause => pause
  | CallResume => resume
  | CallCancel => cancel
  | CallTick => tick
  | CallUpdateStatusBar => updateStatusBar
  | CallRestoreState => restoreState
  | CallDispose => dispose
  end.

(** What a call does to the stored snapshot: nothing, or it writes one
    that is not IDLE. *)
Definition keepsOrWritesNonIdle (before after : Data.Memento) : Prop :=
  Data.timerState after = Data.timerState before
  \/ exists s, Data.timerState after = Some s /\ Data.sd_state s <> IDLE.

Ltac written :=
  solve [ left; reflexivity
        | right; eexists; split; [reflexivity | discriminate] ].

Ltac branches :=
  repeat match goal with
         | |- context [if ?c then _ else _] => destruct c; run
         end.

Lemma call_keepsOrWritesNonIdle (c : Entry) (e : Env) (w : World) :
  keepsOrWritesNonIdle (globalState w) (globalState (exec (call c) e w)).
Proof.
  unfold keepsOrWritesNonIdle. destruct e as [now settings]. fields w.
  destruct globalState0 as [recs snap].
  destruct c; cbv [call].
  - destruct state0, intervalId0; run; written.
  - destruct state0, intervalId0; run; written.
  - destruct state0, intervalId0, pauseTime0 as [[| |]|]; run; try written;
      destruct previousState0; run; written.
  - destruct state0, intervalId0; run; written.
  - destruct state0, intervalId0; run; branches; try written.
  - destruct state0; run; written.
  - destruct snap as [[ss sr st sc sk sts]|]; run; [| written].
    destruct ss, intervalId0; run; branches; written.
  - destruct state0, intervalId0; run; written.
Qed.

(** What [restoreState] makes of a stored snapshot [saved] at the
    instant [now]: a paused snapshot is entered as it is; a running one
    is entered with the seconds that are left when some are, and
    otherwise it is completed, work into its break and a break into
    IDLE. *)
Definition restoredFrom (saved : Data.TimerStateData) (now : Z) (w' : World) : Prop :=
  let left := Data.sd_remainingTime saved - (now - Data.sd_timestamp saved) / 1000 in
  (Data.sd_state saved = PAUSED ->
     state (timer w') = PAUSED
     /\ remainingTime (timer w') = Data.sd_remainingTime saved)
  /\ (Data.sd_state saved = WORKING \/ Data.sd_state saved = SHORT_BREAK
      \/ Data.sd_state saved = LONG_BREAK ->
      0 < left ->
      state (timer w') = Data.sd_state saved
      /\ remainingTime (timer w') = left
      /\ intervalId (timer w') = true)
  /\ (Data.sd_state saved = WORKING -> left <= 0 ->
      (state (timer w') = SHORT_BREAK \/ state (timer w') = LONG_BREAK)
      /\ completedPomodoros (timer w') = Data.sd_completedPomodoros saved + 1)
  /\ (Data.sd_state saved = SHORT_BREAK \/ Data.sd_state saved = LONG_BREAK ->
      left <= 0 ->
      state (timer w') = IDLE).

Lemma restoreState_restoredFrom (e : Env) (w : World) (saved : Data.TimerStateData) :
  Data.getTimerState (globalState w) = Some saved ->
  restoredFrom saved (clock e) (exec restoreState e w).
Proof.
  intros Hsaved. unfold restoredFrom. destruct e as [now settings].
  destruct saved as [ss sr st sc sk sts].
  cbn [clock Data.sd_state Data.sd_remainingTime Data.sd_timestamp
       Data.sd_completedPomodoros].
  fields w. destruct globalState0 as [recs snap].
  unfold Data.getTimerState in Hsaved. cbn [Data.timerState] in Hsaved.
  subst snap.
  set (left := sr - (now - sts) / 1000).
  split; [| split; [| split]].
  - intros ->. run. split; reflexivity.
  - intros Hs Hleft.
    assert (Hmax : Z.max 0 left = left) by lia.
    destruct Hs as [-> | [-> | ->]]; run; fold left; rewrite Hmax;
      (destruct (Z.gtb_spec left 0) as [_ | H]; [| lia]);
      destruct intervalId0; run; repeat split; reflexivity.
  - intros -> Hleft.
    assert (Hmax : Z.max 0 left = 0) by lia.
    run. fold left. rewrite Hmax. change (0 >? 0) with false. run.
    destruct intervalId0; run; notified settings;
      destruct (sk + 1 >=? longBreakInterval (configOf settings)); run;
      split; try reflexivity; auto.
  - intros Hs Hleft.
    assert (Hmax : Z.max 0 left = 0) by lia.
    destruct Hs as [-> | ->]; run; fold left; rewrite Hmax;
      change (0 >? 0) with false; run;
      destruct intervalId0; run; notified settings; reflexivity.
Qed.

(** C3, as the code has it. No call writes a snapshot in the state IDLE.
    [cancel] outside of IDLE, and the tick that ends a break, return the
    machine to IDLE and leave the store as it was, the snapshot written
    before included. A later [restoreState] reads that snapshot: it
    enters its state again when that state is PAUSED, or when fewer
    seconds have passed since its timestamp than it has left; when more
    have passed, it completes the state of the snapshot instead: work
    that was cancelled is counted as done and goes on to its break, a
    break ends in IDLE. *)
Theorem idle_leaves_stale_snapshot
        (e e' : Env) (w : World) (saved : Data.TimerStateData) :
  Data.getTimerState (globalState w) = Some saved ->
  (forall c, keepsOrWritesNonIdle (globalState w) (globalState (exec (call c) e w)))
  /\ (state (timer w) <> IDLE ->
      state (timer (exec cancel e w)) = IDLE
      /\ globalState (exec cancel e w) = globalState w
      /\ restoredFrom saved (clock e') (exec restoreState e' (exec cancel e w)))
  /\ (state (timer w) = SHORT_BREAK \/ state (timer w) = LONG_BREAK ->
      intervalId (timer w) = true ->
      remainingTime (timer w) <= 1 ->
      state (timer (exec tick e w)) = IDLE
      /\ globalState (exec tick e w) = globalState w
      /\ restoredFrom saved (clock e') (exec restoreState e' (exec tick e w))).
Proof.
  intros Hsaved.
  split; [intros c; apply call_keepsOrWritesNonIdle |].
  split.
  - intros Hs.
    assert (Hcancel : state (timer (exec cancel e w)) = IDLE
                      /\ globalState (exec cancel e w) = globalState w).
    { clear Hsaved. fields w.
      destruct state0, intervalId0; try congruence; run; split; reflexivity. }
    destruct Hcancel as [Hidle Hstore].
    split; [exact Hidle | split; [exact Hstore |]].
    apply restoreState_restoredFrom. rewrite Hstore. exact Hsaved.
  - intros Hs Hid Hr.
    assert (Htick : state (timer (exec tick e w)) = IDLE
                    /\ globalState (exec tick e w) = globalState w).
    { clear Hsaved. destruct e as [now settings]. fields w. subst.
      destruct Hs as [-> | ->]; run;
        (destruct (Z.leb_spec (remainingTime0 - 1) 0) as [_ | H]; [| lia]);
        notified settings; split; reflexivity. }
    destruct Htick as [Hidle Hstore].
    split; [exact Hidle | split; [exact Hstore |]].
    apply restoreState_restoredFrom. rewrite Hstore. exact Hsaved.
Qed.

End SnapshotClaims.

(** A short break counted down to its last second, and the same break
    ended by the next tick. *)
Definition breakLastSecond : Timer.World :=
  @Timer.ticks cst quick (seconds 61000 59)
    (Timer.exec (@Timer.tick cst) (at_ 61000 quick)
       (@Timer.ticks cst quick (seconds 1000 59)
          (Timer.exec (@Timer.startWork cst) (at_ 1000 quick) idleWorld))).

Definition breakEnded : Timer.World :=
  Timer.exec (@Timer.tick cst) (at_ 121000 quick) breakLastSecond.

(** C3, as the specification states it, fails. The break that ended left
    its snapshot in the store, but a [restoreState] 79 seconds later does
    not enter SHORT_BREAK again: it ends in IDLE. And after work cancelled
    with 30 seconds left, a [restoreState] 69 seconds later is not WORKING:
    it has counted the cancelled interval as done and is in its break. *)
Lemma restoreState_after_idle_not_stale :
  (Timer.state (Timer.timer breakEnded) = Data.IDLE
   /\ Data.getTimerState (Timer.globalState breakEnded)
      = Some {| Data.sd_state := Data.SHORT_BREAK; Data.sd_remainingTime := 1;
                Data.sd_totalDuration := 60; Data.sd_completedPomodoros := 1;
                Data.sd_consecutivePomodoros := 1; Data.sd_timestamp := 120000 |}
   /\ Timer.state (Timer.timer
        (Timer.exec (@Timer.restoreState cst) (at_ 200000 quick) breakEnded))
      <> Data.SHORT_BREAK)
  /\ (let cancelled := Timer.exec (@Timer.cancel cst) (at_ 32000 quick) halfway in
      let restored :=
        Timer.exec (@Timer.restoreState cst) (at_ 100000 quick) cancelled in
      Timer.state (Timer.timer cancelled) = Data.IDLE
      /\ Timer.state (Timer.timer restored) <> Data.WORKING
      /\ Timer.state (Timer.timer restored) = Data.SHORT_BREAK
      /\ Timer.completedPomodoros (Timer.timer restored) = 1).
Proof.
  vm_compute. repeat split; try reflexivity; discriminate.
Qed.

Lemma idle_leaves_stale_snapshot_witness :
  Timer.globalState (Timer.exec (@Timer.cancel cst) (at_ 32000 quick) halfway)
  = Timer.globalState halfway
  /\ Timer.state (Timer.timer
       (Timer.exec (@Timer.restoreState cst) (at_ 33000 quick)
          (Timer.exec (@Timer.cancel cst) (at_ 32000 quick) halfway)))
     = Data.WORKING.
Proof.
  pose proof (@idle_leaves_stale_snapshot cst (at_ 32000 quick) (at_ 33000 quick)
                halfway
                {| Data.sd_state := Data.WORKING; Data.sd_remainingTime := 30;
                   Data.sd_totalDuration := 60; Data.sd_completedPomodoros := 0;
                   Data.sd_consecutivePomodoros := 0; Data.sd_timestamp := 31000 |}
                eq_refl) as H.
  destruct H as (_ & H & _).
  destruct H as (_ & Hstore & Hrestored); [vm_compute; discriminate |].
  split; [exact Hstore |].
  destruct Hrestored as (_ & Hrunning & _).
  exact (proj1 (Hrunning (or_introl eq_refl) eq_refl)).
Defined.


(** * More of the code *)

(** ** [src/extension.ts]: the toggle command *)

Module Extension.
Import Host Notification Timer.

Section WithCalendar.
Context {cal : Calendar}.

(** The callback of 'pomodoro-clock.toggle'. Its last [else], for a state
    that is none of the five, has no state to run in. *)
Definition toggle : M unit :=
  currentState <- this state ;;
  match currentState with
  | IDLE => startWork
  | PAUSED => resume
  | WORKING | SHORT_BREAK | LONG_BREAK => pause
  end.

End WithCalendar.

End Extension.

Section Triggers.
Import Host Notification Timer TimerFacts.
Context {cal : Calendar}.

(** The world with one more message in the window. *)
Definition told (m : Message) (w : World) : World :=
  {| timer := timer w; globalState := globalState w;
     statusBarItem := statusBarItem w;
     window := (window w ++ [m])%list |}.

(** X2. A trigger that does not apply changes nothing but the window:
    [pause] outside of the three running states, [resume] outside of
    PAUSED, [resume] in PAUSED when the pause time is null or 0, and
    [cancel] in IDLE each leave the timer, the store and the status bar as
    they are and show their one message. *)
Theorem invalid_trigger_shows_message_only (e : Env) (w : World) :
  (state (timer w) = IDLE \/ state (timer w) = PAUSED ->
     exec pause e w = told MsgCannotPause w)
  /\ (state (timer w) <> PAUSED ->
     exec resume e w = told MsgCannotResume w)
  /\ (state (timer w) = PAUSED -> falsy (pauseTime (timer w)) = true ->
     exec resume e w = told MsgPauseTimeLost w)
  /\ (state (timer w) = IDLE ->
     exec cancel e w = told MsgIsIdle w).
Proof.
  unfold told. fields w. split; [| split; [| split]].
  - intros [-> | ->]; run; reflexivity.
  - intros Hs. destruct state0; try congruence; run; reflexivity.
  - intros -> Hp. run. cbv [falsy] in Hp.
    destruct pauseTime0 as [[| |]|]; try discriminate Hp; reflexivity.
  - intros ->. run. reflexivity.
Qed.

(** What [pause] and then [resume] make of a running timer. *)
Lemma pause_then_resume (e1 e2 : Env) (w : World) :
  state (timer w) = WORKING \/ state (timer w) = SHORT_BREAK
  \/ state (timer w) = LONG_BREAK ->
  clock e1 <> 0 ->
  let paused := exec pause e1 w in
  let resumed := exec resume e2 paused in
  (state (timer paused) = PAUSED
   /\ intervalId (timer paused) = false
   /\ remainingTime (timer paused) = remainingTime (timer w)
   /\ previousState (timer paused) = state (timer w)
   /\ pauseTime (timer paused) = Some (clock e1))
  /\ timer resumed
     = {| state := state (timer w);
          remainingTime := remainingTime (timer w);
          totalDuration := totalDuration (timer w);
          intervalId := true;
          completedPomodoros := completedPomodoros (timer w);
          consecutivePomodoros := consecutivePomodoros (timer w);
          startTime := startTime (timer w);
          pauseTime := None;
          previousState := state (timer w) |}
  /\ records resumed = records w
  /\ window resumed = (window w ++ [MsgPaused; MsgResumed])%list.
Proof.
  intros Hs Hclock. cbv zeta. destruct e1 as [now1 settings1].
  destruct e2 as [now2 settings2]. cbn [clock] in *. unfold records.
  fields w.
  destruct Hs as [-> | [-> | ->]]; destruct intervalId0; run;
    destruct now1 as [| p | p]; try congruence; run;
    rewrite <- ?app_assoc; repeat split; reflexivity.
Qed.

(** X1. [pause] and then [resume] give back the running timer: the same
    state, the same seconds left (whatever time has passed between the
    two), the same total, counters and start time, the countdown running
    again, nothing recorded. The pause must not happen at the instant 0 of
    the clock: a pause time of 0 reads as no pause time and [resume]
    refuses, the timer stays PAUSED. *)
Theorem pause_resume_round_trip (e1 e2 : Env) (w : World) :
  state (timer w) = WORKING \/ state (timer w) = SHORT_BREAK
  \/ state (timer w) = LONG_BREAK ->
  let resumed := exec resume e2 (exec pause e1 w) in
  (clock e1 <> 0 ->
     state (timer resumed) = state (timer w)
     /\ remainingTime (timer resumed) = remainingTime (timer w)
     /\ totalDuration (timer resumed) = totalDuration (timer w)
     /\ completedPomodoros (timer resumed) = completedPomodoros (timer w)
     /\ consecutivePomodoros (timer resumed) = consecutivePomodoros (timer w)
     /\ startTime (timer resumed) = startTime (timer w)
     /\ intervalId (timer resumed) = true
     /\ pauseTime (timer resumed) = None
     /\ records resumed = records w)
  /\ (clock e1 = 0 ->
     state (timer resumed) = PAUSED
     /\ intervalId (timer resumed) = false
     /\ window resumed = (window w ++ [MsgPaused; MsgPauseTimeLost])%list).
Proof.
  intros Hs. cbv zeta. split.
  - intros Hclock.
    destruct (pause_then_resume e1 e2 w Hs Hclock) as (_ & Ht & Hr & _).
    rewrite Ht. cbn [state remainingTime totalDuration completedPomodoros
                     consecutivePomodoros startTime intervalId pauseTime].
    repeat split; try reflexivity. exact Hr.
  - intros Hclock. destruct e1 as [now1 settings1].
    destruct e2 as [now2 settings2]. cbn [clock] in Hclock. subst now1.
    fields w.
    destruct Hs as [-> | [-> | ->]]; destruct intervalId0; run;
      rewrite <- ?app_assoc; repeat split; reflexivity.
Qed.

(** X3. The toggle command walks the cycle: from IDLE it starts a work
    interval of the configured minutes; from a running state it pauses;
    and, the pause not being at the instant 0, a second toggle resumes the
    state paused from with the seconds that were left. *)
Theorem toggle_cycle (e1 e2 : Env) (w : World) :
  (state (timer w) = IDLE ->
     exec Extension.toggle e1 w = exec startWork e1 w
     /\ state (timer (exec Extension.toggle e1 w)) = WORKING
     /\ remainingTime (timer (exec Extension.toggle e1 w))
        = workDuration (configOf (configuration e1)) * 60)
  /\ (state (timer w) = WORKING \/ state (timer w) = SHORT_BREAK
      \/ state (timer w) = LONG_BREAK ->
      let paused := exec Extension.toggle e1 w in
      let resumed := exec Extension.toggle e2 paused in
      state (timer paused) = PAUSED
      /\ intervalId (timer paused) = false
      /\ remainingTime (timer paused) = remainingTime (timer w)
      /\ (clock e1 <> 0 ->
          state (timer resumed) = state (timer w)
          /\ remainingTime (timer resumed) = remainingTime (timer w)
          /\ intervalId (timer resumed) = true)).
Proof.
  split.
  - intros Hs.
    assert (Heq : exec Extension.toggle e1 w = exec startWork e1 w).
    { fields w. subst. reflexivity. }
    rewrite Heq. split; [reflexivity |].
    destruct (startWork_starts e1 w) as (S1 & _ & S3 & _);
      [rewrite Hs; discriminate |].
    split; assumption.
  - intros Hs. cbv zeta.
    assert (Hp : exec Extension.toggle e1 w = exec pause e1 w).
    { fields w. destruct Hs as [-> | [-> | ->]]; reflexivity. }
    rewrite Hp.
    assert (Hpaused : state (timer (exec pause e1 w)) = PAUSED
                      /\ intervalId (timer (exec pause e1 w)) = false
                      /\ remainingTime (timer (exec pause e1 w))
                         = remainingTime (timer w)).
    { fields w. destruct Hs as [-> | [-> | ->]]; destruct intervalId0; run;
        repeat split; reflexivity. }
    destruct Hpaused as (P1 & P2 & P3).
    repeat (split; [assumption |]).
    intros Hclock.
    assert (Hr : exec Extension.toggle e2 (exec pause e1 w)
                 = exec resume e2 (exec pause e1 w)).
    { revert P1. generalize (exec pause e1 w). intros p P1.
      fields p. subst. reflexivity. }
    rewrite Hr.
    destruct (pause_then_resume e1 e2 w Hs Hclock) as (_ & Ht & _).
    rewrite Ht. repeat split; reflexivity.
Qed.

(** X4. [cancel] in any state but IDLE resets the machine: IDLE, nothing
    remaining, no total, no start time, no pause time, no interval
    registered, the store left as it was (no record, the snapshot not
    rewritten), the completed count kept. The consecutive count is set to
    0 only when the state was WORKING; cancelled in a break or in PAUSED
    (also when work was paused) it is kept. *)
Theorem cancel_resets_from_any_state (e : Env) (w : World) :
  state (timer w) <> IDLE ->
  let w' := exec cancel e w in
  timer w'
  = {| state := IDLE; remainingTime := 0; totalDuration := 0;
       intervalId := false;
       completedPomodoros := completedPomodoros (timer w);
       consecutivePomodoros :=
         match state (timer w) with
         | WORKING => 0
         | _ => consecutivePomodoros (timer w)
         end;
       startTime := None; pauseTime := None; previousState := IDLE |}
  /\ globalState w' = globalState w
  /\ window w' = (window w ++ [MsgCancelled])%list.
Proof.
  intros Hs. cbv zeta. fields w.
  destruct state0, intervalId0; try congruence; run; repeat split; reflexivity.
Qed.

End Triggers.

Section Invariants.
Import Host Notification Timer TimerFacts.
Context {cal : Calendar}.

(** The snapshot [saveState] builds of a timer at the instant [now]. *)
Definition snapshotOf (t : PomodoroTimer) (now : Z) : Data.TimerStateData :=
  {| Data.sd_state := state t;
     Data.sd_remainingTime := remainingTime t;
     Data.sd_totalDuration := totalDuration t;
     Data.sd_completedPomodoros := completedPomodoros t;
     Data.sd_consecutivePomodoros := consecutivePomodoros t;
     Data.sd_timestamp := now |}.

(** The store mirrors the timer: when the timer is not IDLE, the stored
    snapshot is the one of its present fields, at some instant. *)
Definition mirrored (w : World) : Prop :=
  state (timer w) <> IDLE ->
  exists now, Data.getTimerState (globalState w) = Some (snapshotOf (timer w) now).

(** The text [getStatusText] renders of a timer. *)
Definition statusTextOf (t : PomodoroTimer) : StatusText :=
  match state t with
  | IDLE => IdleText
  | s =>
      if remainingTime t >? 0
      then Countdown s (remainingTime t / 60) (Z.rem (remainingTime t) 60)
      else Countdown s 0 0
  end.

(** The status bar shows the timer. *)
Definition textShown (w : World) : Prop :=
  text (statusBarItem w) = Some (statusTextOf (timer w)).

Ltac cases :=
  repeat match goal with
         | |- context [if ?c then _ else _] => destruct c eqn:?; run
         end.

Ltac mirror_done :=
  solve [ intros Hc; exfalso; apply Hc; reflexivity
        | intros _; eexists; reflexivity ].

Lemma call_mirrored (c : Entry) (e : Env) (w : World) :
  mirrored w -> mirrored (exec (call c) e w).
Proof.
  unfold mirrored, snapshotOf. destruct e as [now settings].
  intros H. fields w. destruct globalState0 as [recs snap].
  cbv [Data.getTimerState Data.timerState] in H.
  assert (Hkeep : state0 <> IDLE ->
            exists ts, snap = Some {| Data.sd_state := state0;
                                      Data.sd_remainingTime := remainingTime0;
                                      Data.sd_totalDuration := totalDuration0;
                                      Data.sd_completedPomodoros := completedPomodoros0;
                                      Data.sd_consecutivePomodoros := consecutivePomodoros0;
                                      Data.sd_timestamp := ts |}) by exact H.
  clear H.
  destruct c; cbv [call].
  - destruct state0, intervalId0; run; try mirror_done; exact Hkeep.
  - destruct state0, intervalId0; run; try mirror_done; exact Hkeep.
  - destruct state0, intervalId0; run; try mirror_done; try exact Hkeep;
      destruct pauseTime0 as [[| |]|]; run; try exact Hkeep;
      destruct previousState0; run; mirror_done.
  - destruct state0, intervalId0; run; try mirror_done; exact Hkeep.
  - destruct state0, intervalId0; run; try exact Hkeep; cases; mirror_done.
  - destruct state0; run; mirror_done.
  - destruct snap as [[ss sr st sc sk sts]|]; run; [| exact Hkeep].
    destruct ss, intervalId0; run; cases; mirror_done.
  - destruct state0, intervalId0; run; mirror_done.
Qed.

Lemma activate_mirrored (e : Env) (g : Data.Memento) :
  mirrored (exec activate e (newWorld g)).
Proof.
  unfold mirrored, snapshotOf. destruct e as [now settings].
  destruct g as [recs [[ss sr st sc sk sts]|]]; run; [| mirror_done].
  destruct ss; run; cases; mirror_done.
Qed.

(** The worlds a process goes through: it starts with [activate] on the
    store it finds, and then takes calls, each at its own instant and under
    the configuration of that instant. *)
Inductive reached (g : Data.Memento) : World -> Prop :=
| reached_activate (e : Env) : reached g (exec activate e (newWorld g))
| reached_call (w : World) (c : Entry) (e : Env) :
    reached g w -> reached g (exec (call c) e w).

(** X5. Whatever store a process starts on and whatever calls it takes,
    a timer that is not IDLE always has its snapshot in the store: the
    stored state, seconds left, total and counters are the present ones. *)
Theorem snapshot_mirrors_timer (g : Data.Memento) (w : World) :
  reached g w ->
  state (timer w) <> IDLE ->
  exists now,
    Data.getTimerState (globalState w)
    = Some {| Data.sd_state := state (timer w);
              Data.sd_remainingTime := remainingTime (timer w);
              Data.sd_totalDuration := totalDuration (timer w);
              Data.sd_completedPomodoros := completedPomodoros (timer w);
              Data.sd_consecutivePomodoros := consecutivePomodoros (timer w);
              Data.sd_timestamp := now |}.
Proof.
  intros Hreached.
  change (mirrored w).
  induction Hreached as [e | w c e _ IH].
  - apply activate_mirrored.
  - apply call_mirrored. exact IH.
Qed.

Ltac text_done := solve [ reflexivity | assumption ].

Lemma call_textShown (c : Entry) (e : Env) (w : World) :
  textShown w -> textShown (exec (call c) e w).
Proof.
  unfold textShown, statusTextOf. destruct e as [now settings].
  intros H. fields w. destruct statusBarItem0 as [shownText tip].
  cbv [text] in H.
  destruct c; cbv [call].
  - destruct state0, intervalId0; run; cbv [text]; cases; text_done.
  - destruct state0, intervalId0; run; cbv [text]; cases; text_done.
  - destruct state0, intervalId0; run; cbv [text]; try text_done;
      destruct pauseTime0 as [[| |]|]; run; cbv [text]; try text_done;
      destruct previousState0; run; cbv [text]; cases; text_done.
  - destruct state0, intervalId0; run; cbv [text]; text_done.
  - destruct state0, intervalId0; run; cbv [text]; try text_done;
      cases; cbv [text]; cases; text_done.
  - destruct state0; run; cbv [text]; cases; text_done.
  - destruct (Data.timerState globalState0) as [[ss sr st sc sk sts]|] eqn:Hsnap;
      destruct globalState0 as [recs snap]; cbv [Data.timerState] in Hsnap;
      subst snap; run; cbv [text]; [| exact H].
    destruct ss, intervalId0; run; cbv [text]; cases; cbv [text]; cases; text_done.
  - destruct state0, intervalId0; run; cbv [text]; text_done.
Qed.

Lemma activate_textShown (e : Env) (g : Data.Memento) :
  textShown (exec activate e (newWorld g)).
Proof.
  unfold textShown, statusTextOf. destruct e as [now settings].
  destruct g as [recs [[ss sr st sc sk sts]|]]; run; cbv [text]; [| reflexivity].
  destruct ss; run; cbv [text]; cases; cbv [text]; cases; reflexivity.
Qed.

(** X6. Whatever store a process starts on and whatever calls it takes,
    the text of the status bar is the one [getStatusText] renders of the
    present timer: the idle text in IDLE, and in the other states the glyph
    of the state with the minutes and seconds left (00:00 when none are). *)
Theorem status_bar_shows_timer (g : Data.Memento) (w : World) (e : Env) :
  reached g w ->
  text (statusBarItem w) = Some (fst (getStatusText e w))
  /\ fst (getStatusText e w)
     = match state (timer w) with
       | IDLE => IdleText
       | s =>
           if remainingTime (timer w) >? 0
           then Countdown s (remainingTime (timer w) / 60)
                          (Z.rem (remainingTime (timer w)) 60)
           else Countdown s 0 0
       end.
Proof.
  intros Hreached.
  assert (Hshown : textShown w).
  { induction Hreached as [e' | w c e' _ IH].
    - apply activate_textShown.
    - apply call_textShown. exact IH. }
  assert (Htext : fst (getStatusText e w) = statusTextOf (timer w)).
  { unfold statusTextOf. clear. fields w. run.
    destruct state0; try reflexivity; destruct (remainingTime0 >? 0); reflexivity. }
  split; [| exact Htext].
  rewrite Htext. exact Hshown.
Qed.

End Invariants.

From Stdlib Require Import ZifyBool.

Section Bounds.
Import Host Notification Timer TimerFacts.
Context {cal : Calendar}.

Definition isRunning (s : TimerState) : bool :=
  match s with
  | WORKING | SHORT_BREAK | LONG_BREAK => true
  | IDLE | PAUSED => false
  end.

(** A snapshot as [saveState] writes it from a timer that is in order. *)
Definition goodSnapshot (s : Data.TimerStateData) : Prop :=
  Data.sd_state s <> IDLE
  /\ 1 <= Data.sd_remainingTime s <= Data.sd_totalDuration s.

(** A timer in order, with its store: IDLE has nothing left and no
    interval; the other states have between one second and the total left;
    an interval is registered in a running state only; a pause time in
    force comes with the running state paused from; and the snapshot in the
    store is a good one, of the present state when the timer is not IDLE. *)
Definition inOrder (w : World) : Prop :=
  (state (timer w) = IDLE ->
     remainingTime (timer w) = 0 /\ totalDuration (timer w) = 0
     /\ intervalId (timer w) = false)
  /\ (state (timer w) <> IDLE ->
      1 <= remainingTime (timer w) <= totalDuration (timer w))
  /\ (intervalId (timer w) = true -> isRunning (state (timer w)) = true)
  /\ (falsy (pauseTime (timer w)) = false ->
      isRunning (previousState (timer w)) = true)
  /\ (forall s, Data.getTimerState (globalState w) = Some s ->
        goodSnapshot s
        /\ (state (timer w) <> IDLE -> Data.sd_state s = state (timer w))).

Definition positiveDurations (config : TimerConfig) : Prop :=
  0 < workDuration config /\ 0 < shortBreakDuration config
  /\ 0 < longBreakDuration config.

(** The clock has not gone back behind the stored snapshot. *)
Definition notBefore (e : Env) (w : World) : Prop :=
  forall s, Data.getTimerState (globalState w) = Some s ->
            Data.sd_timestamp s <= clock e.

Ltac prep :=
  repeat match goal with
         | H : ?a = ?a -> _ |- _ => specialize (H eq_refl)
         | H : ?a <> ?b -> _ |- _ => specialize (H ltac:(discriminate))
         | H : ?a = ?b -> _ |- _ => assert (a <> b) by discriminate; clear H
         | H : _ /\ _ |- _ => destruct H
         | H : false = true |- _ => discriminate H
         | H : true = false |- _ => discriminate H
         end.

Ltac order_done :=
  prep; repeat split; intros;
  repeat match goal with
         | H : Some _ = Some _ |- _ => injection H as <-
         | H : ?x <> ?x |- _ => exfalso; apply H; reflexivity
         end;
  cbv [Data.sd_state Data.sd_remainingTime Data.sd_totalDuration isRunning falsy
       configOf workDuration shortBreakDuration longBreakDuration] in *;
  try discriminate; try reflexivity; try lia; try tauto.

Ltac tests :=
  repeat match goal with
         | |- context [if ?c then _ else _] => destruct c eqn:?; run
         end.

Lemma call_inOrder (c : Entry) (e : Env) (w : World) :
  inOrder w ->
  positiveDurations (configOf (configuration e)) ->
  notBefore e w ->
  inOrder (exec (call c) e w).
Proof.
  unfold inOrder, positiveDurations, notBefore, goodSnapshot.
  destruct e as [now settings]. cbn [clock configuration].
  intros (H1 & H2 & H3 & H4 & H5) (Dw & Ds & Dl) Hclock.
  fields w. destruct globalState0 as [recs snap].
  cbv [Data.getTimerState Data.timerState] in *.
  destruct c; cbv [call].
  - destruct state0, intervalId0; run; order_done; try (apply H5; assumption).
  - destruct state0, intervalId0; run; order_done; try (apply H5; assumption).
  - destruct state0, intervalId0; run; try (order_done; apply H5; assumption);
      destruct pauseTime0 as [[| |]|]; run; try (order_done; apply H5; assumption);
      destruct previousState0; run; order_done; try (apply H5; assumption).
  - destruct state0, intervalId0; run; order_done; try (apply H5; assumption).
  - destruct state0, intervalId0; run; prep; tests; order_done;
      try (apply H5; assumption).
  - destruct state0; run; order_done; try (apply H5; assumption).
  - destruct snap as [[ss sr st sc sk sts]|]; [| run; order_done; discriminate].
    specialize (H5 _ eq_refl). specialize (Hclock _ eq_refl).
    cbv [Data.sd_state Data.sd_remainingTime Data.sd_totalDuration
         Data.sd_timestamp] in H5, Hclock.
    assert (Helapsed : 0 <= (now - sts) / 1000) by (apply Z.div_pos; lia).
    assert (Hrun : intervalId0 = true -> isRunning ss = true).
    { intros Hi. specialize (H3 Hi). destruct H5 as [_ H5].
      rewrite H5; [exact H3 |]. destruct state0; discriminate. }
    destruct H5 as [[Hss [Hsr Hst]] _]. clear H1 H2 H3.
    destruct ss, intervalId0; run; prep; tests; order_done.
  - destruct state0, intervalId0; run; order_done; try (apply H5; assumption).
Qed.

(** X8. A timer in order stays in order through every call, provided the
    durations in force are positive and the clock is not behind the
    timestamp of the stored snapshot; and a timer in order has its seconds
    left between 0 and the total. A process that starts on a store without
    snapshot, or with a good one, starts in order. *)
Theorem timer_stays_in_order (c : Entry) (e : Env) (w : World) :
  inOrder w ->
  positiveDurations (configOf (configuration e)) ->
  notBefore e w ->
  let w' := exec (call c) e w in
  inOrder w'
  /\ 0 <= remainingTime (timer w') <= totalDuration (timer w')
  /\ (forall g,
        (forall s, Data.getTimerState g = Some s -> goodSnapshot s) ->
        inOrder (newWorld g)).
Proof.
  intros Hw Hd Hclock. cbv zeta.
  pose proof (call_inOrder c e w Hw Hd Hclock) as Hw'.
  split; [exact Hw' | split].
  - destruct Hw' as (H1 & H2 & _).
    destruct (state (timer (exec (call c) e w)));
      [destruct (H1 eq_refl) as (Hr & Ht & _); lia | | | |];
      specialize (H2 ltac:(discriminate)); lia.
  - intros g Hg. unfold inOrder, newWorld, newTimer.
    cbn [timer globalState state remainingTime totalDuration intervalId
         pauseTime previousState].
    split; [intros _; repeat split; reflexivity |].
    split; [intros H; exfalso; apply H; reflexivity |].
    split; [intros H; discriminate H |].
    split; [intros H; discriminate H |].
    intros s Hs. split; [apply Hg; exact Hs |].
    intros H. exfalso. apply H. reflexivity.
Qed.

End Bounds.

Section Records.
Import Host Notification Timer TimerFacts.
Context {cal : Calendar}.

Ltac branches :=
  repeat match goal with
         | |- context [if ?c then _ else _] => destruct c eqn:?; run
         end.

Ltac appended :=
  solve [ left; reflexivity
        | right; split; [auto | reflexivity] ].

(** X7. The log is only ever appended to, one record a call: a call
    leaves the records as they are or adds one at the end, completed, of
    the configured work minutes, ended at the present instant and started
    at the start time of the timer. Only the tick and [restoreState] add
    one; the commands and the disposal never write a record. *)
Theorem call_appends_at_most_one_record (c : Entry) (e : Env) (w : World) :
  records (exec (call c) e w) = records w
  \/ ((c = CallTick \/ c = CallRestoreState)
      /\ records (exec (call c) e w)
         = (records w ++ [ {| Data.startTime := startTime (timer w);
                              Data.endTime := clock e;
                              Data.duration := workDuration (configOf (configuration e));
                              Data.completed := true |} ])%list).
Proof.
  unfold records. destruct e as [now settings]. fields w.
  destruct globalState0 as [recs snap].
  destruct c; cbv [call].
  - destruct state0, intervalId0; run; appended.
  - destruct state0, intervalId0; run; appended.
  - destruct state0, intervalId0; run; try appended;
      destruct pauseTime0 as [[| |]|]; run; try appended;
      destruct previousState0; run; appended.
  - destruct state0, intervalId0; run; appended.
  - destruct state0, intervalId0; run; branches; appended.
  - destruct state0; run; appended.
  - destruct snap as [[ss sr st sc sk sts]|]; run; [| appended].
    destruct ss, intervalId0; run; branches; appended.
  - destruct state0, intervalId0; run; appended.
Qed.

(** X9. The countdown text denotes the seconds left: outside of IDLE and
    with seconds left, [getStatusText] gives the glyph of the state with
    minutes and seconds such that [60 * minutes + seconds] is the
    remaining time, the seconds below 60. *)
Theorem statusText_denotes_remaining (e : Env) (w : World) :
  state (timer w) <> IDLE ->
  0 < remainingTime (timer w) ->
  exists minutes seconds,
    fst (getStatusText e w) = Countdown (state (timer w)) minutes seconds
    /\ minutes * 60 + seconds = remainingTime (timer w)
    /\ 0 <= minutes /\ 0 <= seconds < 60.
Proof.
  intros Hs Hr. fields w.
  exists (remainingTime0 / 60), (Z.rem remainingTime0 60).
  rewrite Z.rem_mod_nonneg by lia.
  split.
  - run. destruct (Z.gtb_spec remainingTime0 0) as [_ | H]; [| lia].
    rewrite Z.rem_mod_nonneg by lia.
    destruct state0; try congruence; reflexivity.
  - pose proof (Z.div_mod remainingTime0 60 ltac:(lia)).
    pose proof (Z.mod_pos_bound remainingTime0 60 ltac:(lia)).
    assert (0 <= remainingTime0 / 60) by (apply Z.div_pos; lia).
    lia.
Qed.

(** X10. A running timer survives the end of its process: [dispose]
    stops the interval and stores the snapshot, and [activate] in a new
    process on that store, while seconds are left, is in the same state
    with the same total and counters, the seconds left less the whole
    seconds passed, the countdown running, nothing shown and nothing
    recorded. The start time does not survive: it is null. *)
Theorem dispose_activate_round_trip (e1 e2 : Env) (w : World) :
  state (timer w) = WORKING \/ state (timer w) = SHORT_BREAK
  \/ state (timer w) = LONG_BREAK ->
  let elapsed := (clock e2 - clock e1) / 1000 in
  0 < remainingTime (timer w) - elapsed ->
  let stored := globalState (exec dispose e1 w) in
  let w' := exec activate e2 (newWorld stored) in
  intervalId (timer (exec dispose e1 w)) = false
  /\ timer w'
     = {| state := state (timer w);
          remainingTime := remainingTime (timer w) - elapsed;
          totalDuration := totalDuration (timer w);
          intervalId := true;
          completedPomodoros := completedPomodoros (timer w);
          consecutivePomodoros := consecutivePomodoros (timer w);
          startTime := None;
          pauseTime := None;
          previousState := IDLE |}
  /\ records w' = records w
  /\ window w' = [].
Proof.
  intros Hs elapsed Hleft. cbv zeta. destruct e1 as [now1 settings1].
  destruct e2 as [now2 settings2]. cbn [clock] in *. unfold records.
  fields w. destruct globalState0 as [recs snap].
  assert (Hmax : Z.max 0 (remainingTime0 - elapsed) = remainingTime0 - elapsed)
    by lia.
  destruct Hs as [-> | [-> | ->]]; destruct intervalId0; run;
    fold elapsed; rewrite Hmax;
    (destruct (Z.gtb_spec (remainingTime0 - elapsed) 0) as [_ | H]; [| lia]);
    repeat split; reflexivity.
Qed.

Lemma sumDuration_app (a b : list Data.PomodoroRecord) :
  Data.sumDuration (a ++ b) = Data.sumDuration a + Data.sumDuration b.
Proof.
  unfold Data.sumDuration at 1. rewrite fold_left_app.
  fold (Data.sumDuration a). apply fold_left_duration.
Qed.

(** What one more record adds to the aggregate of a day. *)
Lemma getTodayData_recorded (now : Z) (g : Data.Memento) (record : Data.PomodoroRecord) :
  let counted :=
    Data.inDay (startOfDay now) (startOfDay now + msPerDay) record in
  Data.getTodayData now (Data.recordPomodoro record g)
  = {| Data.today_completedPomodoros :=
         Data.today_completedPomodoros (Data.getTodayData now g)
         + (if counted then 1 else 0);
       Data.today_totalWorkTime :=
         Data.today_totalWorkTime (Data.getTodayData now g)
         + (if counted then Data.duration record else 0) |}.
Proof.
  cbv zeta. unfold Data.getTodayData.
  assert (Hrecs : Data.getPomodoroRecords (Data.recordPomodoro record g)
                  = (Data.getPomodoroRecords g ++ [record])%list) by reflexivity.
  rewrite Hrecs, filter_app, length_app, sumDuration_app.
  cbn [Data.today_completedPomodoros Data.today_totalWorkTime filter].
  destruct (Data.inDay _ _ record); cbn [List.length Data.sumDuration fold_left];
    f_equal; lia.
Qed.

(** X11. A work interval that the countdown completes is counted in the
    aggregate of today exactly when its start lies in today's window: then
    the count grows by 1 and the minutes by the configured work minutes.
    An interval started before today, and an interval without start time
    (one that a restored timer completes) once today starts after the
    epoch, leave the aggregate as it was, although [completedPomodoros]
    has grown. *)
Theorem completed_interval_counted_today (e : Env) (w : World) :
  state (timer w) = WORKING ->
  intervalId (timer w) = true ->
  remainingTime (timer w) <= 1 ->
  let now := clock e in
  let minutes := workDuration (configOf (configuration e)) in
  let before := Data.getTodayData now (globalState w) in
  let after := Data.getTodayData now (globalState (exec tick e w)) in
  (forall started,
      startTime (timer w) = Some started ->
      startOfDay now <= started < startOfDay now + msPerDay ->
      Data.today_completedPomodoros after = Data.today_completedPomodoros before + 1
      /\ Data.today_totalWorkTime after = Data.today_totalWorkTime before + minutes)
  /\ (forall started,
      startTime (timer w) = Some started ->
      started < startOfDay now ->
      after = before)
  /\ (startTime (timer w) = None ->
      0 < startOfDay now ->
      after = before
      /\ completedPomodoros (timer (exec tick e w)) = completedPomodoros (timer w) + 1).
Proof.
  intros Hs Hid Hr now minutes before after.
  assert (Hstore : Data.getTodayData now (globalState (exec tick e w))
                   = Data.getTodayData now
                       (Data.recordPomodoro
                          {| Data.startTime := startTime (timer w);
                             Data.endTime := now;
                             Data.duration := minutes;
                             Data.completed := true |} (globalState w))).
  { destruct (tick_ends_work e w Hs Hid Hr) as (_ & _ & E3 & _).
    unfold Data.getTodayData. unfold records in E3. rewrite E3. reflexivity. }
  assert (Hcount : completedPomodoros (timer (exec tick e w))
                   = completedPomodoros (timer w) + 1).
  { destruct (tick_ends_work e w Hs Hid Hr) as (E1 & _). exact E1. }
  subst after. rewrite Hstore, getTodayData_recorded. fold before.
  unfold Data.inDay. cbn [Data.startTime Data.completed Data.duration].
  split; [| split].
  - intros started -> Hin. cbn [Data.toNumber].
    replace (started >=? startOfDay now) with true by lia.
    replace (started <? startOfDay now + msPerDay) with true by lia.
    cbn [andb Data.today_completedPomodoros Data.today_totalWorkTime].
    split; reflexivity.
  - intros started -> Hin. cbn [Data.toNumber].
    replace (started >=? startOfDay now) with false by lia.
    cbn [andb]. destruct before; cbn. f_equal; lia.
  - intros -> Hday. cbn [Data.toNumber].
    replace (0 >=? startOfDay now) with false by lia.
    cbn [andb]. split; [| exact Hcount]. destruct before; cbn. f_equal; lia.
Qed.

(** X12. The last entry of the rolling week is the aggregate of today:
    the count and the minutes [getTodayData] gives, under the label of the
    present instant. *)
Theorem today_is_last_of_week (now : Z) (g : Data.Memento) :
  nth_error (Data.getLast7DaysData now g) 6
  = Some {| Data.date := toLocaleDateString now;
            Data.day_completed :=
              Data.today_completedPomodoros (Data.getTodayData now g);
            Data.day_workTime :=
              Data.today_totalWorkTime (Data.getTodayData now g) |}.
Proof.
  rewrite getLast7DaysData_list. cbn [nth_error map].
  unfold Data.dayEntry, Data.getTodayData.
  change (- 0) with 0. rewrite addDays_0. reflexivity.
Qed.

(** X13. The export follows the log: recording an interval appends its
    row to the text of the export and leaves the text before it as it was,
    so that the split of the new export is the split of the old one with
    the line of the record put before the final empty piece; and after
    [clearAllData] the export is the header alone. *)
Theorem export_follows_the_log (g : Data.Memento) (record : Data.PomodoroRecord) :
  Data.exportToCSV (Data.recordPomodoro record g)
  = (Data.exportToCSV g ++ Data.csvRow record)%string
  /\ Data.splitOn newline (Data.exportToCSV (Data.recordPomodoro record g))
     = (removelast (Data.splitOn newline (Data.exportToCSV g))
          ++ [csvLine record; EmptyString])%list
  /\ Data.splitOn newline (Data.exportToCSV (Data.clearAllData g))
     = [Data.csvHeader; EmptyString].
Proof.
  assert (Hrecs : Data.getPomodoroRecords (Data.recordPomodoro record g)
                  = (Data.getPomodoroRecords g ++ [record])%list) by reflexivity.
  split; [| split].
  - unfold Data.exportToCSV. rewrite Hrecs, fold_left_app. reflexivity.
  - rewrite !exportToCSV_pieces. rewrite Hrecs, map_app. cbn [map].
    change (Data.csvHeader :: map csvLine (Data.getPomodoroRecords g) ++ [EmptyString])%list
      with ((Data.csvHeader :: map csvLine (Data.getPomodoroRecords g)) ++ [EmptyString])%list.
    rewrite removelast_last. cbn [app]. now rewrite <- app_assoc.
  - rewrite exportToCSV_pieces. reflexivity.
Qed.

End Records.

(** A work interval of one minute with one second left. *)
Definition lastSecond : Timer.World :=
  @Timer.ticks cst quick (seconds 1000 59)
    (Timer.exec (@Timer.startWork cst) (at_ 1000 quick) idleWorld).

(** The world of a process that has started on an empty store and taken
    the start command. *)
Definition started : Timer.World :=
  Timer.exec (@call cst CallStartWork) (at_ 1000 quick)
    (Timer.exec (@Timer.activate cst) (at_ 500 quick) (Timer.newWorld Data.emptyMemento)).

Lemma pause_resume_round_trip_witness :
  Timer.remainingTime
    (Timer.timer (Timer.exec (@Timer.resume cst) (at_ 90000 quick)
                    (Timer.exec (@Timer.pause cst) (at_ 31500 quick) halfway)))
  = 30.
Proof.
  pose proof (@pause_resume_round_trip cst (at_ 31500 quick) (at_ 90000 quick)
                halfway (or_introl eq_refl)) as H.
  cbv zeta in H. destruct H as [H _].
  destruct H as (_ & Hr & _); [vm_compute; discriminate |].
  rewrite Hr. reflexivity.
Defined.

Lemma cancel_resets_from_any_state_witness :
  Timer.state (Timer.timer (Timer.exec (@Timer.cancel cst) (at_ 40000 quick) pausedHalfway))
  = Data.IDLE.
Proof.
  pose proof (@cancel_resets_from_any_state cst (at_ 40000 quick) pausedHalfway) as H.
  cbv zeta in H. destruct H as (Ht & _); [vm_compute; discriminate |].
  rewrite Ht. reflexivity.
Defined.

Lemma snapshot_mirrors_timer_witness :
  exists now,
    Data.getTimerState (Timer.globalState started)
    = Some {| Data.sd_state := Data.WORKING; Data.sd_remainingTime := 60;
              Data.sd_totalDuration := 60; Data.sd_completedPomodoros := 0;
              Data.sd_consecutivePomodoros := 0; Data.sd_timestamp := now |}.
Proof.
  apply (@snapshot_mirrors_timer cst Data.emptyMemento started).
  - unfold started. apply reached_call. apply reached_activate.
  - vm_compute. discriminate.
Defined.

Lemma status_bar_shows_timer_witness :
  Timer.text (Timer.statusBarItem started)
  = Some (Timer.Countdown Data.WORKING 1 0).
Proof.
  pose proof (@status_bar_shows_timer cst Data.emptyMemento started (at_ 1000 quick)) as H.
  destruct H as [Htext Hshown].
  - unfold started. apply reached_call. apply reached_activate.
  - rewrite Htext, Hshown. reflexivity.
Defined.

Lemma timer_stays_in_order_witness :
  0 <= Timer.remainingTime (Timer.timer started)
    <= Timer.totalDuration (Timer.timer started).
Proof.
  apply (@timer_stays_in_order cst CallStartWork (at_ 1000 quick)
           (Timer.exec (@Timer.activate cst) (at_ 500 quick)
                       (Timer.newWorld Data.emptyMemento))).
  - unfold inOrder. vm_compute.
    repeat split; intros; try discriminate; try reflexivity;
      exfalso; auto.
  - vm_compute. repeat split; reflexivity.
  - intros s Hs. vm_compute in Hs. discriminate Hs.
Defined.

(** Without the second premise of X8 the bound fails: restored at an
    instant before its timestamp, the snapshot of [halfway] gets more
    seconds left than its total. *)
Example clock_behind_snapshot_exceeds_total :
  let restored :=
    Timer.exec (@Timer.restoreState cst) (at_ (-100000) quick)
               (Timer.newWorld (Timer.globalState halfway)) in
  Timer.remainingTime (Timer.timer restored) = 161
  /\ Timer.totalDuration (Timer.timer restored) = 60.
Proof. vm_compute. split; reflexivity. Qed.

Lemma statusText_denotes_remaining_witness :
  exists minutes seconds,
    fst (@Timer.getStatusText (at_ 31000 quick) halfway)
    = Timer.Countdown Data.WORKING minutes seconds
    /\ minutes * 60 + seconds = 30
    /\ 0 <= minutes /\ 0 <= seconds < 60.
Proof.
  apply (@statusText_denotes_remaining (at_ 31000 quick) halfway).
  - vm_compute. discriminate.
  - vm_compute. reflexivity.
Defined.

Lemma dispose_activate_round_trip_witness :
  Timer.remainingTime
    (Timer.timer
       (Timer.exec (@Timer.activate cst) (at_ 41200 quick)
          (Timer.newWorld
             (Timer.globalState (Timer.exec Timer.dispose (at_ 31200 quick) halfway)))))
  = 20.
Proof.
  pose proof (@dispose_activate_round_trip cst (at_ 31200 quick) (at_ 41200 quick)
                halfway (or_introl eq_refl)) as H.
  cbv zeta in H. destruct H as (_ & Ht & _); [vm_compute; reflexivity |].
  rewrite Ht. reflexivity.
Defined.

Lemma completed_interval_counted_today_witness :
  Data.today_completedPomodoros
    (@Data.getTodayData cst 61000
       (Timer.globalState (Timer.exec (@Timer.tick cst) (at_ 61000 quick) lastSecond)))
  = 1.
Proof.
  pose proof (@completed_interval_counted_today cst (at_ 61000 quick) lastSecond) as H.
  cbv zeta in H.
  destruct H as (Hin & _);
    [vm_compute; reflexivity | vm_compute; reflexivity
     | vm_compute; discriminate |].
  destruct (Hin 1000) as [Hc _];
    [vm_compute; reflexivity | vm_compute; split; [discriminate | reflexivity] |].
  cbn [at_ Timer.clock] in Hc. rewrite Hc. vm_compute. reflexivity.
Defined.
